(** * A single-neuron perceptron trained on logic-gate truth tables

    Shallow embedding of the [Perceptron] class of [LogicGates.ipynb] and of
    the four training cells that use it, followed by the properties of
    prediction, training, convergence and error behaviour.

    The class is written once, over an abstract arithmetic, and run at two
    arithmetics:
    - [float64]: IEEE 754 binary64, the arithmetic of the NumPy arrays the
      notebook computes with;
    - [exact]: canonical rationals [Qc], arithmetic without rounding or
      overflow, the "real numbers" reading of the weights.

    The arithmetic includes the inner product of [np.dot]: NumPy hands it
    to a kernel that is free to fuse a multiplication with the addition
    that follows and to add the products in blocks, so in binary64 its
    result is fixed only up to these choices. A theorem stated for every
    arithmetic holds for every such kernel; the instance [float64] takes
    the kernel that rounds each product and adds in index order, and
    [float64_fused] is binary64 with a kernel that fuses each
    multiplication with the addition.

    The first part holds the definitions: the class and the cells, the
    values one call computes, the wording of the specification, and the
    notions the proofs use. The second part holds the lemmas, the third the
    theorems of the claims C1 to C10, the fourth further properties of the
    methods, X1 to X11. *)

From Stdlib Require Import ZArith List Bool Lia.
From Stdlib Require Import QArith Qcanon Lqa.
From Stdlib Require Import Floats.
Import ListNotations.

Set Implicit Arguments.

(** ** Scalars *)

(** What the class needs from its numbers: the zero that [np.zeros] and
    [self.bias = 0] start from, [+] and [*], the conversion of a Python /
    NumPy integer (the error signal, a truth-table entry), the test
    [prediction >= 0], the literal [0.1] of the default learning rate, and
    the inner product [np.dot] computes on two arrays of one length. *)
Class Scalar (T : Type) : Type := {
  s0 : T;
  sadd : T -> T -> T;
  smul : T -> T -> T;
  sint : Z -> T;
  sge0 : T -> bool;
  lit_0_1 : T;
  sdot : list T -> list T -> T
}.

(** The inner product that takes each product as the arithmetic gives it
    and adds the products to the zero in index order. *)
Definition sum_in_order {T : Type} (zero : T) (add mul : T -> T -> T)
    (a b : list T) : T :=
  fold_left (fun acc p => add acc (mul (fst p) (snd p))) (combine a b) zero.

(** An integer becomes the nearest double, ties to even: the conversion of
    an [int64] by NumPy and of an [int] by Python (which raises
    [OverflowError] for an [int] beyond the doubles; no [int64] is). *)
Definition float_of_int (z : Z) : float :=
  SF2Prim (binary_normalize prec emax z 0 false).

(** NumPy [float64]. *)
#[export] Instance float64 : Scalar float := {
  s0 := 0%float;
  sadd := PrimFloat.add;
  smul := PrimFloat.mul;
  sint := float_of_int;
  sge0 := fun y => PrimFloat.leb 0%float y;
  lit_0_1 := 0x1.999999999999ap-4%float;
  sdot := sum_in_order 0%float PrimFloat.add PrimFloat.mul
}.

(** Exact rational arithmetic. *)
#[export] Instance exact : Scalar Qc := {
  s0 := 0%Qc;
  sadd := Qcplus;
  smul := Qcmult;
  sint := fun z => Q2Qc (inject_Z z);
  sge0 := fun y => Qle_bool 0 (this y);
  lit_0_1 := Q2Qc (1 # 10);
  sdot := sum_in_order 0%Qc Qcplus Qcmult
}.

(** ** Python exceptions and mutable [self] *)

(** The exceptions NumPy raises inside the class: [np.zeros] on a negative
    size ("negative dimensions are not allowed") and on a size that is no
    [int64] ("Maximum allowed dimension exceeded"), and [np.dot] on
    one-dimensional operands of different lengths ("shapes (m,) and (n,)
    not aligned"). *)
Inductive exn : Type :=
| ValueError_negative_dimensions
| ValueError_maximum_dimension
| ValueError_shapes_not_aligned (m n : nat).

Inductive result (A : Type) : Type :=
| Ok (a : A)
| Raise (e : exn).
Arguments Ok {A} a.
Arguments Raise {A} e.

(** A method body: it reads and writes [self] and either returns or raises.
    What was written before an exception stays written, as in Python. *)
Definition M (S A : Type) : Type := S -> result A * S.

Definition ret {S A : Type} (a : A) : M S A := fun s => (Ok a, s).

Definition bind {S A B : Type} (m : M S A) (k : A -> M S B) : M S B :=
  fun s =>
    match m s with
    | (Ok a, s') => k a s'
    | (Raise e, s') => (Raise e, s')
    end.

Definition get {S : Type} : M S S := fun s => (Ok s, s).

Definition put {S : Type} (s : S) : M S unit := fun _ => (Ok tt, s).

Definition lift {S A : Type} (r : result A) : M S A := fun s => (r, s).

Declare Scope py_scope.
Delimit Scope py_scope with py.
Notation "x <- m ;; k" := (bind m (fun x => k))
  (at level 61, m at next level, right associativity) : py_scope.
Notation "m ;; k" := (bind m (fun _ => k))
  (at level 61, right associativity) : py_scope.
Local Open Scope py_scope.

(** [for a in l: body(a)] *)
Fixpoint for_each {S A : Type} (l : list A) (body : A -> M S unit) : M S unit :=
  match l with
  | [] => ret tt
  | a :: l' => body a ;; for_each l' body
  end.

(** [for _ in range(n): body] *)
Fixpoint for_range {S : Type} (n : nat) (body : M S unit) : M S unit :=
  match n with
  | O => ret tt
  | S n' => body ;; for_range n' body
  end.

(** ** The class *)

Section PerceptronClass.

Context {T : Type} {num : Scalar T}.

(** *** The NumPy operations it calls *)

(** The size is first converted to an [int64], then checked for its sign.
    Memory is not modelled: an array of fewer than [2^63] entries is taken
    to be allocated. *)
Definition np_zeros (n : Z) : result (list T) :=
  if ((n <? - 2 ^ 63) || (2 ^ 63 <=? n))%Z then Raise ValueError_maximum_dimension
  else if (n <? 0)%Z then Raise ValueError_negative_dimensions
  else Ok (repeat s0 (Z.to_nat n)).

(** The sum of the products in index order, in the arithmetic at hand. *)
Definition dot_sum (a b : list T) : T :=
  fold_left (fun acc p => sadd acc (smul (fst p) (snd p))) (combine a b) s0.

(** [np.dot] checks the two lengths and hands the arrays to its kernel. *)
Definition np_dot (a b : list T) : result T :=
  if Nat.eqb (length a) (length b) then Ok (sdot a b)
  else Raise (ValueError_shapes_not_aligned (length a) (length b)).

(** [c * v], scalar times array. *)
Definition np_scale (c : T) (v : list T) : list T := map (smul c) v.

(** [a += v] for arrays of one length: [train] reaches it only after
    [np.dot] has accepted the same pair of lengths. *)
Definition np_iadd (a v : list T) : list T :=
  map (fun p => sadd (fst p) (snd p)) (combine a v).

(** *** State and methods *)

Record Perceptron : Type := mkPerceptron {
  weights : list T;
  bias : T;
  learning_rate : T
}.

(** [__init__(self, input_size, learning_rate=0.1)] *)
Definition init (input_size : Z) (lr : T) : result Perceptron :=
  match np_zeros input_size with
  | Ok w => Ok {| weights := w; bias := s0; learning_rate := lr |}
  | Raise e => Raise e
  end.

Definition default_learning_rate : T := lit_0_1.

Definition activation_function (prediction : T) : Z :=
  if sge0 prediction then 1%Z else 0%Z.

(** The difference of two integers. Python subtracts its own [int]s so;
    NumPy, on a label that is an entry of an [int64] array, gives the same
    as long as the difference is an [int64], and wraps around otherwise. *)
Definition loss_function (expected_output prediction : Z) : Z :=
  (expected_output - prediction)%Z.

Definition predict (x : list T) : M Perceptron Z :=
  self <- get ;;
  d <- lift (np_dot x (weights self)) ;;
  ret (activation_function (sadd d (bias self))).

(** The body of the inner loop of [train]. *)
Definition train_body (ex : list T * Z) : M Perceptron unit :=
  let '(input_vector, output) := ex in
  prediction <- predict input_vector ;;
  let error := loss_function output prediction in
  self <- get ;;
  put {| weights := np_iadd (weights self)
                      (np_scale (smul (learning_rate self) (sint error)) input_vector);
         bias := bias self;
         learning_rate := learning_rate self |} ;;
  self <- get ;;
  put {| weights := weights self;
         bias := sadd (bias self) (smul (learning_rate self) (sint error));
         learning_rate := learning_rate self |}.

Definition default_epochs : nat := 10.

(** [train(self, input_vectors, outputs, epochs=10)] *)
Definition train (input_vectors : list (list T)) (outputs : list Z) (epochs : nat)
  : M Perceptron unit :=
  for_range epochs (for_each (combine input_vectors outputs) train_body).

End PerceptronClass.

Arguments Perceptron T : clear implicits.

(** ** The notebook's training cells *)

Section Notebook.

Context {T : Type} {num : Scalar T}.

(** [np.array] of integer rows, converted entry by entry when it meets the
    [float64] weights. *)
Definition np_array (rows : list (list Z)) : list (list T) := map (map sint) rows.

Definition OR_inputs : list (list T) := np_array [[0; 0]; [0; 1]; [1; 0]; [1; 1]]%Z.
Definition OR_outputs : list Z := [0; 1; 1; 1]%Z.

Definition AND_inputs : list (list T) := np_array [[0; 0]; [0; 1]; [1; 0]; [1; 1]]%Z.
Definition AND_outputs : list Z := [0; 0; 0; 1]%Z.

Definition OR_inputs_3 : list (list T) :=
  np_array [[0; 0; 0]; [0; 0; 1]; [0; 1; 0]; [0; 1; 1];
            [1; 0; 0]; [1; 0; 1]; [1; 1; 0]; [1; 1; 1]]%Z.
Definition OR_outputs_3 : list Z := [0; 1; 1; 1; 1; 1; 1; 1]%Z.

Definition AND_inputs_3 : list (list T) :=
  np_array [[0; 0; 0]; [0; 0; 1]; [0; 1; 0]; [0; 1; 1];
            [1; 0; 0]; [1; 0; 1]; [1; 1; 0]; [1; 1; 1]]%Z.
Definition AND_outputs_3 : list Z := [0; 0; 0; 0; 0; 0; 0; 1]%Z.

(** [gate = Perceptron(input_size, lr); gate.train(inputs, outputs, epochs)]:
    the unit the cell is left with, or the exception that ended it. *)
Definition trained_gate (input_size : Z) (lr : T)
    (inputs : list (list T)) (outputs : list Z) (epochs : nat)
  : result (Perceptron T) :=
  match init input_size lr with
  | Ok gate =>
      match train inputs outputs epochs gate with
      | (Ok _, gate') => Ok gate'
      | (Raise e, _) => Raise e
      end
  | Raise e => Raise e
  end.

(** [[gate.predict(x) for x in rows]] *)
Definition predictions (gate : Perceptron T) (rows : list (list T)) : list (result Z) :=
  map (fun x => fst (predict x gate)) rows.

End Notebook.

(** ** What one call computes *)

(** The values the methods compute when no exception is raised, read off
    the method bodies; the lemmas of the second part tie them to the
    methods. *)

Section Calls.

Context {T : Type} {num : Scalar T}.

Definition raw_activation (u : Perceptron T) (x : list T) : T :=
  sadd (sdot x (weights u)) (bias u).

Definition output_of (u : Perceptron T) (x : list T) : Z :=
  activation_function (raw_activation u x).

Definition update (u : Perceptron T) (x : list T) (error : Z) : Perceptron T :=
  {| weights := np_iadd (weights u) (np_scale (smul (learning_rate u) (sint error)) x);
     bias := sadd (bias u) (smul (learning_rate u) (sint error));
     learning_rate := learning_rate u |}.

Definition error_of (u : Perceptron T) (ex : list T * Z) : Z :=
  loss_function (snd ex) (output_of u (fst ex)).

Definition step (u : Perceptron T) (ex : list T * Z) : Perceptron T :=
  update u (fst ex) (error_of u ex).

(** One pass over the data set, then [n] of them. *)
Definition sweep (u : Perceptron T) (d : list (list T * Z)) : Perceptron T :=
  fold_left step d u.

Fixpoint sweeps (n : nat) (u : Perceptron T) (d : list (list T * Z)) : Perceptron T :=
  match n with
  | O => u
  | S n' => sweeps n' (sweep u d) d
  end.

(** The error signal of each example of one pass, each taken at the
    parameters the pass has reached when it meets the example. *)
Fixpoint epoch_errors (u : Perceptron T) (d : list (list T * Z)) : list Z :=
  match d with
  | [] => []
  | ex :: d' => error_of u ex :: epoch_errors (step u ex) d'
  end.

Definition misclassified (u : Perceptron T) (d : list (list T * Z)) : nat :=
  length (filter (fun e => negb (e =? 0)%Z) (epoch_errors u d)).

(** Every example has as many entries as the unit has weights. *)
Definition fits (u : Perceptron T) (d : list (list T * Z)) : Prop :=
  Forall (fun ex => length (fst ex) = length (weights u)) d.

(** A hyperplane, given as a unit, that puts every example on the side of
    its label; a data set is linearly separable when one exists. *)
Definition classifies (v : Perceptron T) (d : list (list T * Z)) : Prop :=
  fits v d /\ forall ex, In ex d -> output_of v (fst ex) = snd ex.

Definition separable (d : list (list T * Z)) : Prop :=
  exists v, classifies v d.

Definition inputs_of (d : list (list T * Z)) : list (list T) := map fst d.
Definition outputs_of (d : list (list T * Z)) : list Z := map snd d.

(** The units on which an update with error 0 writes back what it read. *)
Definition zero_update_neutral (u : Perceptron T) (d : list (list T * Z)) : Prop :=
  forall ex, In ex d -> update u (fst ex) 0 = u.

(** An expected output from which subtracting a prediction, 0 or 1, gives
    an [int64]. *)
Definition int64_label (y : Z) : Prop := (- 2 ^ 63 < y < 2 ^ 63)%Z.

(** The cell [gate = Perceptron(input_size); gate.train(inputs, outputs, epochs)]
    leaves a gate that answers every row of the table with its output. *)
Definition learns (input_size : Z) (inputs : list (list T)) (outputs : list Z)
    (epochs : nat) : Prop :=
  exists gate,
    trained_gate input_size default_learning_rate inputs outputs epochs = Ok gate /\
    predictions gate inputs = map Ok outputs.

End Calls.

(** ** The specification's wording *)

(** The same two operations as the specification words them, entry by
    entry over the indices of the weight vector; the sum of [predict] is
    taken in the arithmetic at hand, in index order. *)

Section Specification.

Context {T : Type} {num : Scalar T}.

(** [Σ_{i < n} f i] *)
Fixpoint sigma (n : nat) (f : nat -> T) : T :=
  match n with
  | O => s0
  | S n' => sadd (sigma n' f) (f n')
  end.

(** [y = Σ_i weight[i] * input[i] + bias] *)
Definition spec_activation (u : Perceptron T) (x : list T) : T :=
  sadd (sigma (length (weights u)) (fun i => smul (nth i (weights u) s0) (nth i x s0)))
       (bias u).

(** return 1 if [y >= 0], else 0 *)
Definition spec_predict (u : Perceptron T) (x : list T) : Z :=
  if sge0 (spec_activation u x) then 1%Z else 0%Z.

(** [prediction = predict(input)], the value [predict] returns at the
    current parameters; [error = expected_output - prediction]; for every
    index i, [weight[i] += learning_rate * error * input[i]];
    [bias += learning_rate * error]. *)
Definition spec_example (u : Perceptron T) (ex : list T * Z) : Perceptron T :=
  let prediction := output_of u (fst ex) in
  let error := (snd ex - prediction)%Z in
  {| weights :=
       map (fun i => sadd (nth i (weights u) s0)
                          (smul (smul (learning_rate u) (sint error)) (nth i (fst ex) s0)))
           (seq 0 (length (weights u)));
     bias := sadd (bias u) (smul (learning_rate u) (sint error));
     learning_rate := learning_rate u |}.

(** Iterate the data set once in its given order. *)
Definition spec_epoch (d : list (list T * Z)) (u : Perceptron T) : Perceptron T :=
  fold_left spec_example d u.

(** For each epoch, 1..epochs, in order. *)
Definition spec_train (d : list (list T * Z)) (epochs : nat) (u : Perceptron T)
  : Perceptron T :=
  Nat.iter epochs (spec_epoch d) u.

(** Multiplication of scalars commutes: [np.dot(x, w)] multiplies
    [x[i] * w[i]] where the specification writes [weight[i] * input[i]]. *)
Definition mul_commutes : Prop := forall a b : T, smul a b = smul b a.

(** The kernel of [np.dot] rounds each product and adds in index order. *)
Definition sums_in_order : Prop := forall a b : list T, sdot a b = dot_sum a b.

End Specification.

Arguments mul_commutes T {num}.
Arguments sums_in_order T {num}.

(** ** Binary64 values *)

(** A finite value: neither an infinity nor a NaN. *)
Definition is_real (x : float) : bool :=
  match Prim2SF x with
  | S754_zero _ | S754_finite _ _ _ => true
  | _ => false
  end.

Definition is_zero (x : float) : bool :=
  match Prim2SF x with
  | S754_zero _ => true
  | _ => false
  end.

Definition is_neg_zero (x : float) : bool :=
  match Prim2SF x with
  | S754_zero true => true
  | _ => false
  end.

(** The same two tests on the [spec_float] view of a double. *)
Definition is_zero_sf (x : spec_float) : bool :=
  match x with
  | S754_zero _ => true
  | _ => false
  end.

Definition is_neg_zero_sf (x : spec_float) : bool :=
  match x with
  | S754_zero true => true
  | _ => false
  end.

Definition real (x : float) : Prop := is_real x = true.

Definition no_neg_zero (x : float) : Prop := is_neg_zero x = false.

(** A data set without infinities and NaNs. *)
Definition real_data (d : list (list float * Z)) : Prop :=
  Forall (fun ex => Forall real (fst ex)) d.

(** A unit with a finite learning rate none of whose parameters is the
    negative zero: every unit [__init__] returns for a finite learning rate
    is one, and training keeps it one. *)
Definition plain_unit (u : Perceptron float) : Prop :=
  real (learning_rate u) /\ Forall no_neg_zero (weights u) /\ no_neg_zero (bias u).

(** ** A second kernel for [np.dot] *)

(** The fused multiply-add of IEEE 754: [x * y + z] with one rounding.
    Three finite operands other than zero give the exact value, rounded;
    with [z] a zero the result is the rounded product, with [z] an infinity
    or a NaN it is [z]; where [x] or [y] is a zero, an infinity or a NaN
    the product is exact and the result is the product added to [z]. *)
Definition SFfma (x y z : spec_float) : spec_float :=
  match x, y, z with
  | S754_finite sx mx ex, S754_finite sy my ey, S754_finite sz mz ez =>
      let e := Z.min (ex + ey) ez in
      let p := (Z.pos mx * Z.pos my * 2 ^ (ex + ey - e))%Z in
      let q := (Z.pos mz * 2 ^ (ez - e))%Z in
      binary_normalize prec emax
        ((if xorb sx sy then - p else p) + (if sz then - q else q))%Z e false
  | S754_finite _ _ _, S754_finite _ _ _, S754_zero _ => SFmul prec emax x y
  | S754_finite _ _ _, S754_finite _ _ _, S754_infinity _ => z
  | S754_finite _ _ _, S754_finite _ _ _, S754_nan => z
  | _, _, _ => SFadd prec emax (SFmul prec emax x y) z
  end.

Definition fma (x y z : float) : float :=
  SF2Prim (SFfma (Prim2SF x) (Prim2SF y) (Prim2SF z)).

(** The inner product of a kernel that fuses each multiplication with the
    addition to the running sum, in index order. *)
Definition sum_fused (a b : list float) : float :=
  fold_left (fun acc p => fma (fst p) (snd p) acc) (combine a b) 0%float.

(** Binary64 with this kernel; everything else as in [float64]. *)
Definition float64_fused : Scalar float := {|
  s0 := 0%float;
  sadd := PrimFloat.add;
  smul := PrimFloat.mul;
  sint := float_of_int;
  sge0 := fun y => PrimFloat.leb 0%float y;
  lit_0_1 := 0x1.999999999999ap-4%float;
  sdot := sum_fused
|}.

(** A unit and a data set on which the two kernels part: the products
    [0.3 * 0.1] and [-0.3 * 0.1] cancel once each is rounded and leave the
    rounding error of one of them when the second is fused. *)
Definition near_tie : Perceptron float :=
  {| weights := [0x1.3333333333333p-2%float; (-0x1.3333333333333p-2)%float];
     bias := 0%float;
     learning_rate := 0x1.999999999999ap-4%float |}.

Definition near_tie_data : list (list float * Z) :=
  [ ([0%float; 1%float], 0%Z);
    ([1%float; 0%float], 1%Z);
    ([0x1.3333333333333p-2%float; 0x1.3333333333333p-2%float], 1%Z) ].

(** ** The units the notebook prints *)

(** [Weights: [0.1 0.1] Bias: -0.1] *)
Definition OR_gate : Perceptron float :=
  {| weights := [0x1.999999999999ap-4; 0x1.999999999999ap-4]%float;
     bias := (-0x1.999999999999ap-4)%float;
     learning_rate := 0x1.999999999999ap-4%float |}.

(** [Weights: [0.2 0.1] Bias: -0.20000000000000004] *)
Definition AND_gate : Perceptron float :=
  {| weights := [0x1.999999999999ap-3; 0x1.999999999999ap-4]%float;
     bias := (-0x1.999999999999bp-3)%float;
     learning_rate := 0x1.999999999999ap-4%float |}.

(** [Weights: [0.1 0.1 0.1] Bias: -0.1] *)
Definition OR_gate_3 : Perceptron float :=
  {| weights := [0x1.999999999999ap-4; 0x1.999999999999ap-4; 0x1.999999999999ap-4]%float;
     bias := (-0x1.999999999999ap-4)%float;
     learning_rate := 0x1.999999999999ap-4%float |}.

(** [Weights: [0.1 0.1 0.1] Bias: -0.20000000000000004] *)
Definition AND_gate_3 : Perceptron float :=
  {| weights := [0x1.999999999999ap-4; 0x1.999999999999ap-4; 0x1.999999999999ap-4]%float;
     bias := (-0x1.999999999999bp-3)%float;
     learning_rate := 0x1.999999999999ap-4%float |}.

(** ** A data set of large inputs *)

(** [2^1023], a finite double. *)
Definition big : float := 0x1p1023%float.

(** Three examples, separated by the hyperplane [-x0 + 1.5 x1 >= 0]. *)
Definition big_data : list (list float * Z) :=
  [ ([big; 0%float], 0%Z); ([big; big], 1%Z); ([0%float; 0%float], 1%Z) ].

Definition big_separator : Perceptron float :=
  {| weights := [(-1)%float; 1.5%float]; bias := 0%float; learning_rate := lit_0_1 |}.

(** [Perceptron(2)] in binary64. *)
Definition fresh_2 : Perceptron float :=
  {| weights := [0%float; 0%float]; bias := 0%float; learning_rate := lit_0_1 |}.

(** The same three examples and the same unit over the rationals. *)
Definition big_exact : Qc := Q2Qc (inject_Z (2 ^ 1023)).

Definition big_data_exact : list (list Qc * Z) :=
  [ ([big_exact; Q2Qc 0], 0%Z); ([big_exact; big_exact], 1%Z); ([Q2Qc 0; Q2Qc 0], 1%Z) ].

Definition fresh_2_exact : Perceptron Qc :=
  {| weights := [Q2Qc 0; Q2Qc 0]; bias := Q2Qc 0; learning_rate := lit_0_1 |}.

(** Once the second weight has overflowed. *)
Definition stuck (u : Perceptron float) : Prop :=
  learning_rate u = lit_0_1 /\ exists w1, weights u = [w1; infinity].

(** ** Vectors of rationals *)

(** The notions of the convergence proof in exact arithmetic. *)

Local Open Scope Qc_scope.

(** Inner product and squared distance of two vectors. *)
Fixpoint vdot (a b : list Qc) : Qc :=
  match a, b with
  | x :: a', y :: b' => x * y + vdot a' b'
  | _, _ => 0
  end.

Fixpoint dist2 (a b : list Qc) : Qc :=
  match a, b with
  | x :: a', y :: b' => (x - y) * (x - y) + dist2 a' b'
  | _, _ => 0
  end.

(** A unit as one vector, bias first, and an input with the constant 1
    that multiplies the bias. *)
Definition theta (u : Perceptron Qc) : list Qc := bias u :: weights u.
Definition hat (x : list Qc) : list Qc := 1 :: x.

(** [v] puts every example on its side of the hyperplane, at distance [mu]
    at least (in the scale of [v]). *)
Definition margin (mu : Qc) (v : list Qc) (ex : list Qc * Z) : Prop :=
  (snd ex = 1%Z /\ mu <= vdot v (hat (fst ex))) \/
  (snd ex = 0%Z /\ vdot v (hat (fst ex)) <= - mu).

(** The squared distance of the unit to [v] is what training pushes down. *)
Definition potential (v : list Qc) (u : Perceptron Qc) : Qc := dist2 (theta u) v.

Definition norm2 (x : list Qc) : Qc := vdot (hat x) (hat x).

(** An upper bound of the squared norms of all inputs. *)
Fixpoint radius2 (d : list (list Qc * Z)) : Qc :=
  match d with
  | [] => 0
  | ex :: d' => norm2 (fst ex) + radius2 d'
  end.

(** The count of epochs as a rational. *)
Fixpoint qnat (k : nat) : Qc :=
  match k with
  | O => 0
  | S k' => qnat k' + 1
  end.

(** The units training passes through: learning rate [eta], [n] weights. *)
Definition good (eta : Qc) (n : nat) (u : Perceptron Qc) : Prop :=
  learning_rate u = eta /\ length (weights u) = n.

Local Close Scope Qc_scope.

(** ** Notions of the further properties *)

Section Counting.

Context {T : Type} {num : Scalar T}.

(** The misclassifications of the first [n] epochs together: the number of
    updates with an error other than 0. *)
Fixpoint total_mistakes (n : nat) (u : Perceptron T) (d : list (list T * Z)) : nat :=
  match n with
  | O => O
  | S n' => (misclassified u d + total_mistakes n' (sweep u d) d)%nat
  end.

End Counting.

(** [u] is [u1] with weights, bias and learning rate multiplied by [k]. *)
Definition scaled (k : Qc) (u u1 : Perceptron Qc) : Prop :=
  weights u = map (Qcmult k) (weights u1) /\
  bias u = (k * bias u1)%Qc /\
  learning_rate u = (k * learning_rate u1)%Qc.

(** A unit with a NaN as its bias or among its weights. *)
Definition poisoned (u : Perceptron float) : Prop :=
  bias u = nan \/ In nan (weights u).

(** The XOR table on the rows of the 2-field cells, and one row given both
    labels. *)
Definition XOR_data : list (list Qc * Z) :=
  combine (@OR_inputs Qc exact) [0; 1; 1; 0]%Z.

Definition torn_data : list (list float * Z) :=
  [ ([0%float], 0%Z); ([0%float], 1%Z) ].

(** ** Proof tactics *)

Ltac unfold_exact :=
  cbn [sadd smul s0 sint sge0 lit_0_1 exact] in *.

(** Moves a goal about [Qc] to [Q], where [lra] and [nra] work. *)
Ltac to_Q :=
  unfold_exact;
  repeat match goal with
  | H : @eq Qc ?a ?b |- _ =>
      let H' := fresh H in
      assert (H' : Qeq (this a) (this b)) by (rewrite H; reflexivity); clear H
  | |- @eq Qc _ _ => apply Qc_is_canon
  end;
  unfold Qcminus in *;
  unfold Qcle, Qclt, Qcplus, Qcmult, Qcopp, Q2Qc in *;
  cbn [this] in *;
  repeat match goal with
  | H : context [Qred ?q] |- _ => rewrite (Qred_correct q) in H
  | |- context [Qred ?q] => rewrite (Qred_correct q)
  end.

(** * Properties *)

(** ** The methods and the values they compute *)

Section CallLemmas.

Context {T : Type} {num : Scalar T}.

Lemma combine_inputs_outputs (d : list (list T * Z)) :
  combine (inputs_of d) (outputs_of d) = d.
Proof.
  induction d as [| [x y] d IH]; simpl; [reflexivity | now rewrite IH].
Qed.

Lemma init_inv (input_size : Z) (lr : T) (u : Perceptron T) :
  init input_size lr = Ok u ->
  (0 <= input_size < 2 ^ 63)%Z /\
  u = {| weights := repeat s0 (Z.to_nat input_size); bias := s0; learning_rate := lr |}.
Proof.
  unfold init, np_zeros.
  destruct (Z.ltb_spec input_size (- 2 ^ 63)); [discriminate |].
  destruct (Z.leb_spec (2 ^ 63) input_size); [discriminate |].
  destruct (Z.ltb_spec input_size 0); [discriminate |].
  simpl. intros E. injection E as <-. split; [lia | reflexivity].
Qed.

Lemma np_dot_ok (a b : list T) :
  length a = length b -> np_dot a b = Ok (sdot a b).
Proof.
  intros E. unfold np_dot. now rewrite E, Nat.eqb_refl.
Qed.

Lemma np_dot_raise (a b : list T) :
  length a <> length b ->
  np_dot a b = Raise (ValueError_shapes_not_aligned (length a) (length b)).
Proof.
  intros E. unfold np_dot.
  destruct (Nat.eqb_spec (length a) (length b)); [contradiction | reflexivity].
Qed.

Lemma predict_ok (u : Perceptron T) (x : list T) :
  length x = length (weights u) -> predict x u = (Ok (output_of u x), u).
Proof.
  intros E. unfold predict, bind, get, lift, ret. now rewrite (np_dot_ok _ _ E).
Qed.

Lemma predict_raise (u : Perceptron T) (x : list T) :
  length x <> length (weights u) ->
  predict x u =
    (Raise (ValueError_shapes_not_aligned (length x) (length (weights u))), u).
Proof.
  intros E. unfold predict, bind, get, lift, ret. now rewrite (np_dot_raise _ _ E).
Qed.

Lemma train_body_ok (u : Perceptron T) (ex : list T * Z) :
  length (fst ex) = length (weights u) -> train_body ex u = (Ok tt, step u ex).
Proof.
  destruct ex as [x y]. simpl. intros E.
  unfold train_body, bind. rewrite (predict_ok _ _ E). reflexivity.
Qed.

Lemma train_body_raise (u : Perceptron T) (ex : list T * Z) :
  length (fst ex) <> length (weights u) ->
  train_body ex u =
    (Raise (ValueError_shapes_not_aligned (length (fst ex)) (length (weights u))), u).
Proof.
  destruct ex as [x y]. simpl. intros E.
  unfold train_body, bind. rewrite (predict_raise _ _ E). reflexivity.
Qed.

Lemma np_iadd_length (a v : list T) :
  length v = length a -> length (np_iadd a v) = length a.
Proof.
  intros E. unfold np_iadd. rewrite length_map, length_combine. lia.
Qed.

Lemma update_length (u : Perceptron T) (x : list T) (e : Z) :
  length x = length (weights u) -> length (weights (update u x e)) = length (weights u).
Proof.
  intros E. simpl. apply np_iadd_length. unfold np_scale. now rewrite length_map.
Qed.

Lemma update_learning_rate (u : Perceptron T) (x : list T) (e : Z) :
  learning_rate (update u x e) = learning_rate u.
Proof. reflexivity. Qed.

Lemma fits_step (u : Perceptron T) (ex : list T * Z) (d : list (list T * Z)) :
  length (fst ex) = length (weights u) -> fits u d -> fits (step u ex) d.
Proof.
  intros E F. unfold fits in *. eapply Forall_impl; [| exact F].
  intros ex' E'. unfold step. now rewrite update_length.
Qed.

Lemma sweep_length (d : list (list T * Z)) : forall u,
  fits u d -> length (weights (sweep u d)) = length (weights u).
Proof.
  induction d as [| ex d IH]; intros u F; [reflexivity |].
  inversion F as [| ? ? E F']; subst.
  change (sweep u (ex :: d)) with (sweep (step u ex) d).
  rewrite IH by now apply fits_step.
  unfold step. now apply update_length.
Qed.

Lemma fits_sweep (u : Perceptron T) (d d' : list (list T * Z)) :
  fits u d -> fits u d' -> fits (sweep u d) d'.
Proof.
  intros F F'. unfold fits in *. eapply Forall_impl; [| exact F'].
  intros ex E. now rewrite sweep_length.
Qed.

Lemma for_each_ok (d : list (list T * Z)) : forall u,
  fits u d -> for_each d train_body u = (Ok tt, sweep u d).
Proof.
  induction d as [| ex d IH]; intros u F; [reflexivity |].
  inversion F as [| ? ? E F']; subst.
  simpl. unfold bind. rewrite (train_body_ok _ _ E).
  apply IH. now apply fits_step.
Qed.

Lemma for_range_ok (d : list (list T * Z)) (n : nat) : forall u,
  fits u d -> for_range n (for_each d train_body) u = (Ok tt, sweeps n u d).
Proof.
  induction n as [| n IH]; intros u F; [reflexivity |].
  simpl. unfold bind. rewrite (for_each_ok F).
  apply IH. now apply fits_sweep.
Qed.

Lemma train_ok (u : Perceptron T) (d : list (list T * Z)) (n : nat) :
  fits u d -> train (inputs_of d) (outputs_of d) n u = (Ok tt, sweeps n u d).
Proof.
  intros F. unfold train. rewrite combine_inputs_outputs. now apply for_range_ok.
Qed.

Lemma sweeps_succ_r (n : nat) : forall u d,
  sweeps (S n) u d = sweep (sweeps n u d) d.
Proof.
  induction n as [| n IH]; intros u d; [reflexivity |].
  change (sweeps (S (S n)) u d) with (sweeps (S n) (sweep u d) d).
  rewrite IH. reflexivity.
Qed.

Lemma sweeps_add (m n : nat) : forall u d,
  sweeps (m + n) u d = sweeps n (sweeps m u d) d.
Proof.
  induction m as [| m IH]; intros u d; [reflexivity |].
  simpl. apply IH.
Qed.

Lemma fits_sweeps (n : nat) : forall u d, fits u d -> fits (sweeps n u d) d.
Proof.
  induction n as [| n IH]; intros u d F; [exact F |].
  simpl. apply IH. now apply fits_sweep.
Qed.

End CallLemmas.

(** ** Facts about binary64 *)

Module Float64.

(** Below [2^63] the conversion is the one of the processor. *)
Lemma float_of_int_uint63 (z : Z) :
  (0 <= z < 2 ^ 63)%Z -> float_of_int z = PrimFloat.of_uint63 (Uint63.of_Z z).
Proof.
  intros H. unfold float_of_int.
  rewrite <- (SF2Prim_Prim2SF (PrimFloat.of_uint63 (Uint63.of_Z z))).
  rewrite of_uint63_spec, Uint63.of_Z_spec, Z.mod_small; [reflexivity |].
  exact H.
Qed.

Lemma SFmul_comm (a b : spec_float) : SF64mul a b = SF64mul b a.
Proof.
  unfold SF64mul, SFmul.
  destruct a as [sa | sa | | sa ma ea], b as [sb | sb | | sb mb eb];
    try reflexivity; try (now rewrite xorb_comm).
  now rewrite xorb_comm, Pos.mul_comm, Z.add_comm.
Qed.

Lemma mul_comm (x y : float) : (x * y)%float = (y * x)%float.
Proof.
  apply Prim2SF_inj. rewrite !mul_spec. apply SFmul_comm.
Qed.

Lemma add_nan_l (x : float) : (nan + x)%float = nan.
Proof.
  apply Prim2SF_inj. rewrite add_spec.
  change (Prim2SF nan) with S754_nan. reflexivity.
Qed.

Lemma add_nan_r (x : float) : (x + nan)%float = nan.
Proof.
  apply Prim2SF_inj. rewrite add_spec.
  change (Prim2SF nan) with S754_nan. now destruct (Prim2SF x).
Qed.

Lemma leb_zero_nan : PrimFloat.leb 0%float nan = false.
Proof. reflexivity. Qed.

(** Adding a zero of either sign changes nothing but a negative zero. *)
Lemma add_zero_r (w z : float) :
  is_neg_zero w = false -> is_zero z = true -> (w + z)%float = w.
Proof.
  unfold is_neg_zero, is_zero. intros Hw Hz.
  apply Prim2SF_inj. rewrite add_spec.
  destruct (Prim2SF z) as [sz | | |]; try discriminate.
  destruct (Prim2SF w) as [[|] | sw | | sw mw ew]; try discriminate;
    try reflexivity; now destruct sz.
Qed.

(** A zero times a finite value is a zero. *)
Lemma mul_zero_l (z x : float) :
  is_zero z = true -> is_real x = true -> is_zero (z * x)%float = true.
Proof.
  unfold is_zero, is_real. intros Hz Hx. rewrite mul_spec.
  destruct (Prim2SF z); try discriminate.
  now destruct (Prim2SF x).
Qed.

Lemma mul_zero_r (x z : float) :
  is_real x = true -> is_zero z = true -> is_zero (x * z)%float = true.
Proof.
  intros Hx Hz. rewrite mul_comm. now apply mul_zero_l.
Qed.

(** *** A sum is the negative zero only if its first term is *)

Lemma iter_pos_nat {A : Type} (f : A -> A) (p : positive) : forall x,
  iter_pos f p x = Nat.iter (Pos.to_nat p) f x.
Proof.
  induction p as [p IH | p IH |]; intros x; simpl iter_pos.
  - rewrite !IH, Pos2Nat.inj_xI.
    replace (S (2 * Pos.to_nat p)) with (Pos.to_nat p + (Pos.to_nat p + 1))%nat by lia.
    rewrite !Nat.iter_add. reflexivity.
  - rewrite !IH, Pos2Nat.inj_xO.
    replace (2 * Pos.to_nat p)%nat with (Pos.to_nat p + Pos.to_nat p)%nat by lia.
    rewrite Nat.iter_add. reflexivity.
  - reflexivity.
Qed.

Lemma shr_1_m (mrs : shr_record) :
  (0 <= shr_m mrs)%Z -> shr_m (shr_1 mrs) = Z.div2 (shr_m mrs).
Proof.
  destruct mrs as [m r s]. simpl. intros H.
  destruct m as [| [p | p |] | p]; try reflexivity; lia.
Qed.

Lemma shr_iter_m (k : nat) : forall mrs,
  (0 <= shr_m mrs)%Z ->
  shr_m (Nat.iter k shr_1 mrs) = Z.shiftr (shr_m mrs) (Z.of_nat k).
Proof.
  induction k as [| k IH]; intros mrs H.
  - simpl. now rewrite Z.shiftr_0_r.
  - rewrite Nat.iter_succ_r, IH.
    + rewrite shr_1_m by exact H. rewrite Z.div2_spec, Z.shiftr_shiftr by lia.
      f_equal. lia.
    + rewrite shr_1_m by exact H. rewrite Z.div2_spec. now apply Z.shiftr_nonneg.
Qed.

Lemma digits2_pos_lower (m : positive) :
  (2 ^ (Zpos (digits2_pos m) - 1) <= Zpos m)%Z.
Proof.
  induction m as [m IH | m IH |]; simpl digits2_pos.
  - rewrite Pos2Z.inj_succ.
    replace (Z.succ (Zpos (digits2_pos m)) - 1)%Z with (Z.succ (Zpos (digits2_pos m) - 1))%Z by lia.
    rewrite Z.pow_succ_r by lia. lia.
  - rewrite Pos2Z.inj_succ.
    replace (Z.succ (Zpos (digits2_pos m)) - 1)%Z with (Z.succ (Zpos (digits2_pos m) - 1))%Z by lia.
    rewrite Z.pow_succ_r by lia. lia.
  - simpl. lia.
Qed.

Lemma shr_record_of_loc_m (m : Z) (l : location) : shr_m (shr_record_of_loc m l) = m.
Proof.
  destruct l as [| []]; reflexivity.
Qed.

(** Rounding a positive mantissa at an exponent that is not below [emin]
    leaves a positive mantissa, at an exponent not below [emin]. *)
Lemma shr_fexp_pos (m : positive) (e : Z) (l : location) :
  (SpecFloat.emin prec emax <= e)%Z ->
  (0 < shr_m (fst (shr_fexp prec emax (Zpos m) e l)))%Z /\
  (SpecFloat.emin prec emax <= snd (shr_fexp prec emax (Zpos m) e l))%Z.
Proof.
  intros He. unfold shr_fexp, shr.
  destruct (fexp prec emax (Zdigits2 (Zpos m) + e) - e)%Z as [| p | p] eqn:En;
    cbn [fst snd]; rewrite ?shr_record_of_loc_m; try (split; lia).
  assert (Hp : (Zpos p = Zpos (digits2_pos m) - prec)%Z).
  { unfold fexp in En. simpl Zdigits2 in En. lia. }
  split; [| lia].
  rewrite iter_pos_nat, shr_iter_m by (rewrite shr_record_of_loc_m; lia).
  rewrite shr_record_of_loc_m, positive_nat_Z, Z.shiftr_div_pow2 by lia.
  apply Z.div_str_pos. split; [apply Z.pow_pos_nonneg; lia |].
  eapply Z.le_trans; [| apply digits2_pos_lower].
  apply Z.pow_le_mono_r; [lia |]. rewrite Hp. unfold prec. lia.
Qed.

Lemma round_nearest_even_pos (m : Z) (l : location) :
  (0 < m)%Z -> (0 < round_nearest_even m l)%Z.
Proof.
  intros H. destruct l as [| []]; simpl; try lia.
  destruct (Z.even m); lia.
Qed.

Lemma binary_round_aux_nonzero (s : bool) (m : positive) (e : Z) (l : location) :
  (SpecFloat.emin prec emax <= e)%Z ->
  is_zero_sf (binary_round_aux prec emax s (Zpos m) e l) = false.
Proof.
  intros He. unfold binary_round_aux.
  pose proof (@shr_fexp_pos m e l He) as [H1 H1'].
  destruct (shr_fexp prec emax (Zpos m) e l) as [mrs' e'] eqn:E1. cbn [fst snd] in *.
  pose proof (@round_nearest_even_pos (shr_m mrs') (loc_of_shr_record mrs') H1) as H2.
  destruct (round_nearest_even (shr_m mrs') (loc_of_shr_record mrs')) as [| m1 | m1];
    try lia.
  pose proof (@shr_fexp_pos m1 e' loc_Exact H1') as [H3 _].
  destruct (shr_fexp prec emax (Zpos m1) e' loc_Exact) as [mrs'' e''].
  cbn [fst snd] in *.
  destruct (shr_m mrs''); try lia.
  now destruct (Z.leb _ _).
Qed.

Lemma shl_align_exponent (m : positive) (e e' : Z) :
  (SpecFloat.emin prec emax <= e)%Z -> (SpecFloat.emin prec emax <= e')%Z ->
  (SpecFloat.emin prec emax <= snd (shl_align m e e'))%Z.
Proof.
  intros He He'. unfold shl_align. now destruct (e' - e)%Z.
Qed.

Lemma binary_round_nonzero (s : bool) (m : positive) (e : Z) :
  (SpecFloat.emin prec emax <= e)%Z ->
  is_zero_sf (binary_round prec emax s m e) = false.
Proof.
  intros He. unfold binary_round.
  pose proof (@shl_align_exponent m e (fexp prec emax (Zpos (digits2_pos m) + e)) He) as H.
  destruct (shl_align m e _) as [mz ez]. cbn [snd] in H.
  apply binary_round_aux_nonzero. apply H. unfold fexp. lia.
Qed.

Lemma valid_exponent (s : bool) (m : positive) (e : Z) :
  valid_binary (S754_finite s m e) = true -> (SpecFloat.emin prec emax <= e)%Z.
Proof.
  unfold SpecFloat.valid_binary, bounded, canonical_mantissa, fexp.
  intros H. apply andb_prop in H as [H _]. apply Z.eqb_eq in H. lia.
Qed.

Lemma SFadd_neg_zero (x y : spec_float) :
  valid_binary x = true -> valid_binary y = true ->
  is_neg_zero_sf x = false -> is_neg_zero_sf (SF64add x y) = false.
Proof.
  intros Vx Vy Hx. unfold SF64add, SFadd.
  destruct x as [[|] | sx | | sx mx ex], y as [[|] | sy | | sy my ey];
    try discriminate; try reflexivity;
    try (now destruct sx); try (now destruct sy); try (now destruct sx, sy).
  apply valid_exponent in Vx, Vy.
  unfold binary_normalize.
  destruct (cond_Zopp sx _ + cond_Zopp sy _)%Z as [| p | p]; [reflexivity | |].
  - pose proof (@binary_round_nonzero false p (Z.min ex ey) ltac:(lia)) as N.
    now destruct (binary_round prec emax false p (Z.min ex ey)).
  - pose proof (@binary_round_nonzero true p (Z.min ex ey) ltac:(lia)) as N.
    now destruct (binary_round prec emax true p (Z.min ex ey)).
Qed.

Lemma add_keeps_no_neg_zero (a b : float) :
  is_neg_zero a = false -> is_neg_zero (a + b)%float = false.
Proof.
  unfold is_neg_zero. rewrite add_spec. intros H.
  apply (@SFadd_neg_zero (Prim2SF a) (Prim2SF b));
    [apply Prim2SF_valid | apply Prim2SF_valid | exact H].
Qed.

End Float64.

(** ** The methods compute what the specification words *)

Section Refinement.

Context {T : Type} {num : Scalar T}.

Lemma sigma_ext (n : nat) (f g : nat -> T) :
  (forall i, (i < n)%nat -> f i = g i) -> sigma n f = sigma n g.
Proof.
  induction n as [| n IH]; intros E; [reflexivity |].
  simpl. rewrite IH by (intros i Hi; apply E; lia).
  now rewrite E by lia.
Qed.

Lemma combine_snoc {A B : Type} (a : list A) : forall (b : list B) (x : A) (y : B),
  length a = length b -> combine (a ++ [x]) (b ++ [y]) = combine a b ++ [(x, y)].
Proof.
  induction a as [| a0 a IH]; intros [| b0 b] x y E; try discriminate; [reflexivity |].
  simpl in E. injection E as E. simpl. now rewrite IH.
Qed.

Lemma dot_sum_snoc (a b : list T) (x y : T) :
  length a = length b ->
  dot_sum (a ++ [x]) (b ++ [y]) = sadd (dot_sum a b) (smul x y).
Proof.
  intros E. unfold dot_sum.
  rewrite combine_snoc by exact E.
  now rewrite fold_left_app.
Qed.

Lemma dot_sum_sigma (a : list T) : forall b,
  length a = length b ->
  dot_sum a b = sigma (length b) (fun i => smul (nth i a s0) (nth i b s0)).
Proof.
  induction a as [| x a IH] using rev_ind; intros b E.
  - destruct b; [reflexivity | discriminate].
  - rewrite length_app in E. simpl in E.
    destruct (exists_last (l := b)) as [b' [y ->]].
    { intros ->. simpl in E. lia. }
    rewrite length_app in E. simpl in E.
    assert (E' : length a = length b') by lia.
    rewrite dot_sum_snoc by exact E'.
    rewrite length_app, Nat.add_1_r. simpl sigma.
    rewrite (IH b' E'). f_equal.
    + apply sigma_ext. intros i Hi.
      rewrite !app_nth1 by lia. reflexivity.
    + rewrite <- E' at 1. rewrite !nth_middle. reflexivity.
Qed.

Lemma np_iadd_scale_nth (c : T) (w : list T) : forall x,
  length x = length w ->
  np_iadd w (np_scale c x) =
    map (fun i => sadd (nth i w s0) (smul c (nth i x s0))) (seq 0 (length w)).
Proof.
  induction w as [| a w IH]; intros [| b x] E; try discriminate; [reflexivity |].
  simpl in E. injection E as E.
  change (np_iadd (a :: w) (np_scale c (b :: x)))
    with (sadd a (smul c b) :: np_iadd w (np_scale c x)).
  simpl. f_equal.
  rewrite <- seq_shift, map_map. apply (IH x E).
Qed.

Lemma step_spec (u : Perceptron T) (ex : list T * Z) :
  length (fst ex) = length (weights u) -> step u ex = spec_example u ex.
Proof.
  intros E. unfold step, spec_example, update, error_of, loss_function.
  now rewrite np_iadd_scale_nth.
Qed.

Lemma sweep_spec (d : list (list T * Z)) : forall u,
  fits u d -> sweep u d = spec_epoch d u.
Proof.
  induction d as [| ex d IH]; intros u F; [reflexivity |].
  inversion F as [| ? ? E F']; subst.
  change (sweep u (ex :: d)) with (sweep (step u ex) d).
  change (spec_epoch (ex :: d) u) with (spec_epoch d (spec_example u ex)).
  rewrite <- (step_spec _ _ E). apply IH. now apply fits_step.
Qed.

Lemma sweeps_spec (d : list (list T * Z)) (n : nat) : forall u,
  fits u d -> sweeps n u d = spec_train d n u.
Proof.
  induction n as [| n IH]; intros u F; [reflexivity |].
  rewrite sweeps_succ_r. unfold spec_train. simpl Nat.iter.
  fold (spec_train d n u). rewrite <- (IH u F).
  apply sweep_spec. now apply fits_sweeps.
Qed.

(** Where the kernel of [np.dot] adds in index order, the activation is
    the sum the specification writes. *)

Hypothesis comm : mul_commutes T.
Hypothesis in_order : sums_in_order T.

Lemma raw_activation_spec (u : Perceptron T) (x : list T) :
  length x = length (weights u) -> raw_activation u x = spec_activation u x.
Proof.
  intros E. unfold raw_activation, spec_activation.
  rewrite in_order, (dot_sum_sigma _ _ E). f_equal.
  apply sigma_ext. intros i _. apply comm.
Qed.

Lemma output_of_spec (u : Perceptron T) (x : list T) :
  length x = length (weights u) -> output_of u x = spec_predict u x.
Proof.
  intros E. unfold output_of, spec_predict, activation_function.
  now rewrite raw_activation_spec.
Qed.

End Refinement.

(** ** A pass without error *)

Section ZeroError.

Context {T : Type} {num : Scalar T}.

Lemma misclassified_cons (u : Perceptron T) (ex : list T * Z) (d : list (list T * Z)) :
  misclassified u (ex :: d) =
    ((if (error_of u ex =? 0)%Z then 0 else 1) + misclassified (step u ex) d)%nat.
Proof.
  unfold misclassified. simpl.
  destruct (error_of u ex =? 0)%Z; reflexivity.
Qed.

Lemma misclassified_zero_cons (u : Perceptron T) (ex : list T * Z) (d : list (list T * Z)) :
  misclassified u (ex :: d) = 0%nat <->
  error_of u ex = 0%Z /\ misclassified (step u ex) d = 0%nat.
Proof.
  rewrite misclassified_cons.
  destruct (Z.eqb_spec (error_of u ex) 0); split.
  - intros H. split; [assumption | exact H].
  - intros [_ H]. exact H.
  - intros H. discriminate.
  - intros [H _]. contradiction.
Qed.

Lemma odd_label_error (u : Perceptron T) (ex : list T * Z) :
  snd ex <> 0%Z -> snd ex <> 1%Z -> error_of u ex <> 0%Z.
Proof.
  unfold error_of, loss_function, output_of, activation_function.
  destruct (sge0 _); lia.
Qed.

Lemma int64_error (u : Perceptron T) (ex : list T * Z) :
  int64_label (snd ex) -> (- 2 ^ 63 <= error_of u ex < 2 ^ 63)%Z.
Proof.
  unfold int64_label, error_of, loss_function, output_of, activation_function.
  destruct (sge0 _); lia.
Qed.

Lemma misclassified_pos (d : list (list T * Z)) (ex : list T * Z) :
  In ex d -> (forall v, error_of v ex <> 0%Z) ->
  forall u, (0 < misclassified u d)%nat.
Proof.
  intros Hin N. induction d as [| ex' d IH]; intros u; [contradiction |].
  rewrite misclassified_cons.
  destruct Hin as [-> | Hin].
  - destruct (Z.eqb_spec (error_of u ex) 0) as [E | E]; [| lia].
    exfalso. exact (N u E).
  - specialize (IH Hin (step u ex')). lia.
Qed.

Lemma sweep_zero_errors (u : Perceptron T) (d : list (list T * Z)) :
  zero_update_neutral u d ->
  forall d', incl d' d -> misclassified u d' = 0%nat -> sweep u d' = u.
Proof.
  intros N d'. induction d' as [| ex d' IH]; intros I Z0; [reflexivity |].
  apply misclassified_zero_cons in Z0 as [E Z0].
  assert (S : step u ex = u).
  { unfold step. rewrite E. apply N, I. now left. }
  change (sweep u (ex :: d')) with (sweep (step u ex) d').
  rewrite S in *. apply IH; [| exact Z0].
  intros ex' Hin. apply I. now right.
Qed.

Lemma zero_errors_within (u : Perceptron T) (d : list (list T * Z)) :
  zero_update_neutral u d ->
  forall d', incl d' d -> misclassified u d' = 0%nat ->
  forall ex, In ex d' -> error_of u ex = 0%Z.
Proof.
  intros N d'. induction d' as [| ex' d' IH]; intros I Z0 ex Hin; [contradiction |].
  apply misclassified_zero_cons in Z0 as [E Z0].
  destruct Hin as [<- | Hin]; [exact E |].
  assert (S : step u ex' = u).
  { unfold step. rewrite E. apply N, I. now left. }
  rewrite S in Z0. apply IH; [| exact Z0 | exact Hin].
  intros e He. apply I. now right.
Qed.

Lemma zero_errors_everywhere (u : Perceptron T) (d : list (list T * Z)) :
  zero_update_neutral u d -> misclassified u d = 0%nat ->
  forall ex, In ex d -> error_of u ex = 0%Z.
Proof.
  intros N Z0. apply (zero_errors_within N); [apply incl_refl | exact Z0].
Qed.

Lemma sweeps_fixed (u : Perceptron T) (d : list (list T * Z)) (n : nat) :
  sweep u d = u -> sweeps n u d = u.
Proof.
  intros F. induction n as [| n IH]; [reflexivity |].
  simpl. now rewrite F.
Qed.

Lemma sweeps_zero_errors (u : Perceptron T) (d : list (list T * Z)) (n : nat) :
  zero_update_neutral u d -> misclassified u d = 0%nat -> sweeps n u d = u.
Proof.
  intros N Z0. apply sweeps_fixed.
  apply (sweep_zero_errors N); [apply incl_refl | exact Z0].
Qed.

End ZeroError.

(** *** In exact arithmetic *)

Module Exact.

Lemma exact_mul_commutes : mul_commutes Qc.
Proof.
  intros a b. apply Qcmult_comm.
Qed.

Lemma exact_sums_in_order : sums_in_order Qc.
Proof.
  intros a b. reflexivity.
Qed.

Lemma exact_iadd_zero (w : list Qc) : forall x,
  length x = length w -> np_iadd w (np_scale 0%Qc x) = w.
Proof.
  induction w as [| a w IH]; intros [| b x] E; try discriminate; [reflexivity |].
  simpl in E. injection E as E.
  change (np_iadd (a :: w) (np_scale 0%Qc (b :: x)))
    with (sadd a (smul 0%Qc b) :: np_iadd w (np_scale 0%Qc x)).
  rewrite (IH x E). f_equal. unfold_exact. ring.
Qed.

Lemma exact_update_zero (u : Perceptron Qc) (x : list Qc) :
  length x = length (weights u) -> update u x 0 = u.
Proof.
  intros E. destruct u as [w b lr]. unfold update. simpl in *.
  replace (Qcmult lr (Q2Qc (inject_Z 0))) with 0%Qc
    by (change (Q2Qc (inject_Z 0)) with 0%Qc; ring).
  rewrite (exact_iadd_zero w x E). f_equal. ring.
Qed.

Lemma zero_update_neutral_fits (u : Perceptron Qc) (d : list (list Qc * Z)) :
  fits u d -> zero_update_neutral u d.
Proof.
  intros F ex Hin. apply exact_update_zero.
  unfold fits in F. rewrite Forall_forall in F. now apply F.
Qed.

End Exact.

(** *** In binary64 *)

Module FloatUnit.

Lemma float_iadd_zero (z : float) (w : list float) : forall x,
  is_zero z = true -> Forall no_neg_zero w -> Forall real x ->
  length x = length w -> np_iadd w (np_scale z x) = w.
Proof.
  induction w as [| a w IH]; intros [| b x] Hz Hw Hx E; try discriminate; [reflexivity |].
  simpl in E. injection E as E.
  inversion Hw as [| ? ? Ha Hw']; subst. inversion Hx as [| ? ? Hb Hx']; subst.
  change (np_iadd (a :: w) (np_scale z (b :: x)))
    with (sadd a (smul z b) :: np_iadd w (np_scale z x)).
  rewrite (IH x Hz Hw' Hx' E). f_equal.
  apply Float64.add_zero_r; [exact Ha |].
  now apply Float64.mul_zero_l.
Qed.

Lemma float_update_zero (u : Perceptron float) (x : list float) :
  plain_unit u -> Forall real x -> length x = length (weights u) -> update u x 0 = u.
Proof.
  intros (Hlr & Hw & Hb) Hx E. destruct u as [w b lr]. unfold update. simpl in *.
  assert (Hz : is_zero (PrimFloat.mul lr 0%float) = true)
    by (now apply Float64.mul_zero_r).
  rewrite float_iadd_zero by assumption. f_equal.
  now apply Float64.add_zero_r.
Qed.

Lemma zero_update_neutral_plain (u : Perceptron float) (d : list (list float * Z)) :
  plain_unit u -> real_data d -> fits u d -> zero_update_neutral u d.
Proof.
  intros P R F ex Hin. unfold fits, real_data in *.
  rewrite Forall_forall in F, R. apply float_update_zero; auto.
Qed.

(** Training keeps a plain unit plain. *)
Lemma plain_iadd (w : list float) : forall v,
  Forall no_neg_zero w -> Forall no_neg_zero (np_iadd w v).
Proof.
  induction w as [| a w IH]; intros [| b v] Hw; try constructor.
  - inversion Hw; subst. now apply Float64.add_keeps_no_neg_zero.
  - inversion Hw; subst. now apply IH.
Qed.

Lemma plain_update (u : Perceptron float) (x : list float) (e : Z) :
  plain_unit u -> plain_unit (update u x e).
Proof.
  intros (Hlr & Hw & Hb).
  split; [exact Hlr |]. split.
  - simpl. now apply plain_iadd.
  - simpl. now apply Float64.add_keeps_no_neg_zero.
Qed.

Lemma plain_sweep (d : list (list float * Z)) : forall u,
  plain_unit u -> plain_unit (sweep u d).
Proof.
  induction d as [| ex d IH]; intros u P; [exact P |].
  change (sweep u (ex :: d)) with (sweep (step u ex) d).
  apply IH. now apply plain_update.
Qed.

Lemma plain_sweeps (n : nat) : forall u d,
  plain_unit u -> plain_unit (sweeps n u d).
Proof.
  induction n as [| n IH]; intros u d P; [exact P |].
  simpl. apply IH. now apply plain_sweep.
Qed.

Lemma plain_init (input_size : Z) (lr : float) (u : Perceptron float) :
  init input_size lr = Ok u -> real lr -> plain_unit u.
Proof.
  intros E R. apply init_inv in E as [_ ->].
  split; [exact R |]. split; [| reflexivity].
  simpl. apply Forall_forall. intros c Hc. apply repeat_spec in Hc. now subst.
Qed.

End FloatUnit.

(** ** Convergence in exact arithmetic *)

Module Convergence.

Local Open Scope Qc_scope.

Lemma fold_dot_vdot (a : list Qc) : forall b acc,
  fold_left (fun acc p => sadd acc (smul (fst p) (snd p))) (combine a b) acc
  = acc + vdot a b.
Proof.
  induction a as [| x a IH]; intros [| y b] acc; simpl; try ring.
  rewrite IH. unfold_exact. ring.
Qed.

Lemma dot_sum_vdot (a b : list Qc) : dot_sum a b = vdot a b.
Proof.
  unfold dot_sum. rewrite fold_dot_vdot. unfold_exact. ring.
Qed.

Lemma vdot_comm (a : list Qc) : forall b, vdot a b = vdot b a.
Proof.
  induction a as [| x a IH]; intros [| y b]; simpl; try reflexivity.
  rewrite IH. ring.
Qed.

Lemma raw_activation_vdot (u : Perceptron Qc) (x : list Qc) :
  raw_activation u x = vdot (theta u) (hat x).
Proof.
  unfold raw_activation, theta, hat.
  rewrite Exact.exact_sums_in_order, dot_sum_vdot, (vdot_comm x).
  simpl. unfold_exact. ring.
Qed.

Lemma theta_update (u : Perceptron Qc) (x : list Qc) (e : Z) :
  theta (update u x e) =
    np_iadd (theta u) (np_scale (learning_rate u * sint e) (hat x)).
Proof.
  unfold theta, hat, update. simpl.
  unfold np_iadd, np_scale. simpl. f_equal. unfold_exact. ring.
Qed.

Lemma dist2_nonneg (a : list Qc) : forall b, 0 <= dist2 a b.
Proof.
  induction a as [| x a IH]; intros [| y b]; simpl; try apply Qcle_refl.
  specialize (IH b). generalize (x - y). intros t. to_Q. nra.
Qed.

Lemma vdot_self_nonneg (a : list Qc) : 0 <= vdot a a.
Proof.
  induction a as [| x a IH]; simpl; [apply Qcle_refl |].
  to_Q. nra.
Qed.

(** |t + c x - v|^2 = |t - v|^2 + 2 c (t.x - v.x) + c^2 |x|^2 *)
Lemma dist2_axpy (c : Qc) (t : list Qc) : forall x v,
  length x = length t -> length v = length t ->
  dist2 (np_iadd t (np_scale c x)) v =
    dist2 t v + (1 + 1) * c * (vdot t x - vdot v x) + c * c * vdot x x.
Proof.
  induction t as [| t0 t IH]; intros [| x0 x] [| v0 v] Ex Ev; try discriminate.
  - simpl. ring.
  - simpl in Ex, Ev. injection Ex as Ex. injection Ev as Ev.
    change (np_iadd (t0 :: t) (np_scale c (x0 :: x)))
      with (sadd t0 (smul c x0) :: np_iadd t (np_scale c x)).
    simpl. rewrite (IH x v Ex Ev). unfold_exact. ring.
Qed.

Lemma vdot_scale (k : Qc) (a : list Qc) : forall b,
  vdot (map (Qcmult k) a) b = k * vdot a b.
Proof.
  induction a as [| x a IH]; intros [| y b]; simpl; try ring.
  rewrite IH. ring.
Qed.

Lemma sge0_true (a : Qc) : sge0 a = true <-> 0 <= a.
Proof.
  unfold_exact. rewrite Qle_bool_iff. reflexivity.
Qed.

Lemma sge0_false (a : Qc) : sge0 a = false <-> a < 0.
Proof.
  split; intros H.
  - destruct (Qclt_le_dec a 0) as [L | L]; [exact L |].
    apply sge0_true in L. congruence.
  - destruct (sge0 a) eqn:E; [| reflexivity].
    apply sge0_true in E. exfalso. revert H. now apply Qcle_not_lt.
Qed.

Lemma output_of_cases (u : Perceptron Qc) (x : list Qc) :
  (output_of u x = 1%Z /\ 0 <= vdot (theta u) (hat x)) \/
  (output_of u x = 0%Z /\ vdot (theta u) (hat x) < 0).
Proof.
  unfold output_of, activation_function. rewrite raw_activation_vdot.
  destruct (sge0 (vdot (theta u) (hat x))) eqn:E.
  - left. split; [reflexivity | now apply sge0_true].
  - right. split; [reflexivity | now apply sge0_false].
Qed.

Lemma radius2_nonneg (d : list (list Qc * Z)) : 0 <= radius2 d.
Proof.
  induction d as [| ex d IH]; simpl; [apply Qcle_refl |].
  pose proof (vdot_self_nonneg (hat (fst ex))) as N. unfold norm2.
  to_Q. lra.
Qed.

Lemma radius2_bound (d : list (list Qc * Z)) (ex : list Qc * Z) :
  In ex d -> norm2 (fst ex) <= radius2 d.
Proof.
  induction d as [| ex' d IH]; intros Hin; [contradiction |].
  simpl. destruct Hin as [-> | Hin].
  - pose proof (radius2_nonneg d). to_Q. lra.
  - specialize (IH Hin).
    pose proof (vdot_self_nonneg (hat (fst ex'))) as N. unfold norm2 at 2.
    to_Q. lra.
Qed.

(** A mistaken example moves the unit towards [v]. *)
Lemma step_mistake (v : list Qc) (mu : Qc) (u : Perceptron Qc) (ex : list Qc * Z) :
  0 < learning_rate u ->
  length (fst ex) = length (weights u) ->
  length v = S (length (weights u)) ->
  margin mu v ex ->
  learning_rate u * norm2 (fst ex) + 1 <= mu ->
  error_of u ex <> 0%Z ->
  potential v (step u ex) <= potential v u - learning_rate u.
Proof.
  intros Hlr Ex Ev Hm Hmu He.
  unfold potential, step. rewrite theta_update.
  rewrite dist2_axpy; [| unfold hat, theta; simpl; lia | unfold theta; simpl; lia].
  fold (norm2 (fst ex)).
  pose proof (vdot_self_nonneg (hat (fst ex))) as Hr. fold (norm2 (fst ex)) in Hr.
  unfold error_of, loss_function, margin in *.
  set (a := vdot (theta u) (hat (fst ex))) in *.
  set (m := vdot v (hat (fst ex))) in *.
  set (r := norm2 (fst ex)) in *.
  set (eta := learning_rate u) in *.
  destruct (output_of_cases u (fst ex)) as [[Ho Ha] | [Ho Ha]];
    destruct Hm as [[Hy Hm] | [Hy Hm]];
    rewrite Ho, Hy in *; try (exfalso; apply He; reflexivity);
    fold a in Ha; clearbody a m r eta; clear He Ho Hy; simpl Z.sub.
  - change (sint (0 - 1)%Z) with (Q2Qc (inject_Z (-1))).
    to_Q. change (inject_Z (-1)) with (-1 # 1)%Q.
    assert (0 <= this eta * this a)%Q by nra.
    assert (this m <= - (this eta * this r + 1))%Q by lra.
    assert (this eta * this m <= - (this eta * (this eta * this r + 1)))%Q by nra.
    assert (0 <= this eta * (this eta * this r))%Q by nra.
    lra.
  - change (sint (1 - 0)%Z) with (Q2Qc (inject_Z 1)).
    to_Q. change (inject_Z 1) with (1 # 1)%Q.
    assert (this eta * this a <= 0)%Q by nra.
    assert (this eta * this r + 1 <= this m)%Q by lra.
    assert (this eta * (this eta * this r + 1) <= this eta * this m)%Q by nra.
    assert (0 <= this eta * (this eta * this r))%Q by nra.
    lra.
Qed.

Lemma qnat_this (k : nat) : (this (qnat k) == inject_Z (Z.of_nat k))%Q.
Proof.
  induction k as [| k IH]; [reflexivity |].
  rewrite Nat2Z.inj_succ. unfold Z.succ. rewrite inject_Z_plus.
  simpl qnat. to_Q. rewrite IH. reflexivity.
Qed.

Lemma qnat_unbounded (q : Qc) : exists k, q < qnat k.
Proof.
  destruct (Qarchimedean (this q)) as [p Hp].
  exists (Pos.to_nat p). unfold Qclt. rewrite qnat_this.
  now rewrite positive_nat_Z.
Qed.

Section Potential.

Variables (v : list Qc) (mu eta : Qc) (n : nat) (d : list (list Qc * Z)).

Hypothesis eta_pos : 0 < eta.
Hypothesis v_length : length v = S n.
Hypothesis d_length : forall ex, In ex d -> length (fst ex) = n.
Hypothesis d_margin : forall ex, In ex d -> margin mu v ex.
Hypothesis mu_large : forall ex, In ex d -> eta * norm2 (fst ex) + 1 <= mu.

Lemma good_fits (u : Perceptron Qc) : good eta n u -> fits u d.
Proof.
  intros [_ L]. unfold fits. apply Forall_forall. intros ex Hin.
  rewrite L. now apply d_length.
Qed.

Lemma good_step (u : Perceptron Qc) (ex : list Qc * Z) :
  good eta n u -> In ex d -> good eta n (step u ex).
Proof.
  intros [R L] Hin. split; [exact R |].
  unfold step. rewrite update_length; [exact L |].
  rewrite L. now apply d_length.
Qed.

Lemma good_sweep (d' : list (list Qc * Z)) : forall u,
  incl d' d -> good eta n u -> good eta n (sweep u d').
Proof.
  induction d' as [| ex d' IH]; intros u I G; [exact G |].
  change (sweep u (ex :: d')) with (sweep (step u ex) d').
  apply IH.
  - intros e He. apply I. now right.
  - apply good_step; [exact G | apply I; now left].
Qed.

Lemma step_potential (u : Perceptron Qc) (ex : list Qc * Z) :
  good eta n u -> In ex d ->
  potential v (step u ex) <= potential v u /\
  (error_of u ex <> 0%Z -> potential v (step u ex) <= potential v u - eta).
Proof.
  intros [R L] Hin.
  assert (Ex : length (fst ex) = length (weights u))
    by (rewrite L; now apply d_length).
  assert (M : error_of u ex <> 0%Z -> potential v (step u ex) <= potential v u - eta).
  { intros He. rewrite <- R.
    apply (@step_mistake v mu u ex); try assumption.
    - now rewrite R.
    - now rewrite L.
    - now apply d_margin.
    - rewrite R. now apply mu_large. }
  split; [| exact M].
  destruct (Z.eq_dec (error_of u ex) 0) as [E | E].
  - unfold step. rewrite E, Exact.exact_update_zero by exact Ex. apply Qcle_refl.
  - specialize (M E). generalize dependent (potential v (step u ex)).
    generalize (potential v u). intros p q M. to_Q. lra.
Qed.

Lemma sweep_potential (d' : list (list Qc * Z)) : forall u,
  incl d' d -> good eta n u ->
  potential v (sweep u d') <= potential v u /\
  (misclassified u d' <> 0%nat -> potential v (sweep u d') <= potential v u - eta).
Proof.
  induction d' as [| ex d' IH]; intros u I G.
  - split; [apply Qcle_refl | intros H; now contradiction H].
  - change (sweep u (ex :: d')) with (sweep (step u ex) d').
    assert (Hin : In ex d) by (apply I; now left).
    assert (I' : incl d' d) by (intros e He; apply I; now right).
    destruct (@step_potential u ex G Hin) as [S1 S2].
    destruct (IH (step u ex) I' (@good_step u ex G Hin)) as [T1 T2].
    split.
    + eapply Qcle_trans; eassumption.
    + rewrite misclassified_cons. intros H.
      destruct (Z.eqb_spec (error_of u ex) 0) as [E | E].
      * simpl in H. specialize (T2 H).
        generalize dependent (potential v (sweep (step u ex) d')).
        generalize dependent (potential v (step u ex)).
        generalize (potential v u). intros. to_Q. lra.
      * specialize (S2 E).
        generalize dependent (potential v (sweep (step u ex) d')).
        generalize dependent (potential v (step u ex)).
        generalize (potential v u). intros. to_Q. lra.
Qed.

(** Within [k] epochs some epoch passes without error, when the potential
    is below [k * eta]. *)
Lemma clean_epoch_within (k : nat) : forall u,
  good eta n u -> potential v u < qnat k * eta ->
  exists j, (j <= k)%nat /\ misclassified (sweeps j u d) d = 0%nat.
Proof.
  induction k as [| k IH]; intros u G B.
  - exfalso. pose proof (dist2_nonneg (theta u) v) as P.
    unfold potential in B. simpl qnat in B.
    generalize dependent (dist2 (theta u) v). intros. to_Q. lra.
  - destruct (Nat.eq_dec (misclassified u d) 0) as [Z0 | NZ].
    + exists 0%nat. split; [lia | exact Z0].
    + destruct (@sweep_potential d u (@incl_refl _ d) G) as [_ Dec].
      specialize (Dec NZ).
      destruct (IH (sweep u d)) as [j [Hj Hz]].
      * apply good_sweep; [apply incl_refl | exact G].
      * simpl qnat in B.
        generalize dependent (potential v (sweep u d)).
        generalize dependent (potential v u).
        generalize (qnat k). clear - eta_pos. intros. to_Q. nra.
      * exists (S j). split; [lia | exact Hz].
Qed.

End Potential.

(** *** A separating hyperplane with a margin *)

Lemma negative_gap (s : Perceptron Qc) (d : list (list Qc * Z)) :
  (forall ex, In ex d -> output_of s (fst ex) = snd ex) ->
  exists delta, 0 < delta /\
    forall ex, In ex d -> snd ex = 0%Z -> vdot (theta s) (hat (fst ex)) <= - delta.
Proof.
  induction d as [| ex d IH]; intros C.
  - exists 1. split; [reflexivity | intros ex []].
  - destruct IH as [delta [Dpos D]].
    { intros e He. apply C. now right. }
    destruct (output_of_cases s (fst ex)) as [[Ho Ha] | [Ho Ha]].
    + exists delta. split; [exact Dpos |].
      intros e [<- | He] Hy; [| now apply D].
      rewrite <- (C ex (or_introl eq_refl)), Ho in Hy. discriminate.
    + set (a := vdot (theta s) (hat (fst ex))) in *.
      destruct (Qclt_le_dec delta (- a)) as [L | L].
      * exists delta. split; [exact Dpos |].
        intros e [<- | He] Hy; [| now apply D].
        fold a. clearbody a. to_Q. lra.
      * exists (- a). split; [clearbody a; to_Q; lra |].
        intros e [<- | He] Hy.
        -- fold a. clearbody a. to_Q. lra.
        -- specialize (D e He Hy).
           generalize dependent (vdot (theta s) (hat (fst e))).
           clearbody a. intros. to_Q. lra.
Qed.

Lemma margin_exists (s : Perceptron Qc) (d : list (list Qc * Z)) (M : Qc) :
  0 < M ->
  (forall ex, In ex d -> output_of s (fst ex) = snd ex) ->
  exists v, length v = S (length (weights s)) /\ forall ex, In ex d -> margin M v ex.
Proof.
  intros Mpos C.
  destruct (@negative_gap s d C) as [delta [Dpos D]].
  assert (Dnz : delta <> 0) by (apply not_eq_sym, Qclt_not_eq; exact Dpos).
  set (kappa := M * / delta).
  assert (K : kappa * delta = M) by (unfold kappa; field; exact Dnz).
  clearbody kappa.
  exists (map (Qcmult kappa)
            (((1 + 1) * bias s + delta) :: map (Qcmult (1 + 1)) (weights s))).
  split; [simpl; now rewrite !length_map |].
  intros ex Hin. unfold margin.
  rewrite vdot_scale.
  assert (V : vdot (((1 + 1) * bias s + delta) :: map (Qcmult (1 + 1)) (weights s))
                (hat (fst ex))
              = (1 + 1) * vdot (theta s) (hat (fst ex)) + delta).
  { unfold theta, hat. simpl. rewrite vdot_scale. ring. }
  rewrite V. clear V.
  specialize (C ex Hin). specialize (D ex Hin).
  destruct (output_of_cases s (fst ex)) as [[Ho Ha] | [Ho Ha]];
    rewrite Ho in C.
  - left. split; [now symmetry |].
    generalize dependent (vdot (theta s) (hat (fst ex))). intros a _ Ha.
    to_Q.
    assert (0 < this kappa)%Q by nra.
    assert (0 <= this kappa * this a)%Q by nra.
    nra.
  - right. split; [now symmetry |].
    specialize (D (eq_sym C)).
    generalize dependent (vdot (theta s) (hat (fst ex))). intros a D _.
    to_Q.
    assert (0 < this kappa)%Q by nra.
    assert (this kappa * this a <= - (this kappa * this delta))%Q by nra.
    nra.
Qed.

(** *** Convergence from any unit *)

Lemma clean_epoch_exists (u : Perceptron Qc) (d : list (list Qc * Z)) :
  0 < learning_rate u -> fits u d -> separable d ->
  exists j, misclassified (sweeps j u d) d = 0%nat.
Proof.
  intros Hlr F [s [Fs C]].
  destruct d as [| ex0 d0] eqn:Ed.
  { exists 0%nat. reflexivity. }
  rewrite <- Ed in *.
  assert (Hex0 : In ex0 d) by (rewrite Ed; now left).
  assert (Ls : length (weights s) = length (weights u)).
  { unfold fits in *. rewrite Forall_forall in F, Fs.
    rewrite <- (F ex0 Hex0). symmetry. now apply Fs. }
  set (eta := learning_rate u) in *.
  set (M := eta * radius2 d + 1).
  assert (Mpos : 0 < M).
  { unfold M. pose proof (radius2_nonneg d) as R.
    generalize dependent (radius2 d). clearbody eta. intros. to_Q. nra. }
  destruct (@margin_exists s d M Mpos C) as [v [Lv Mv]].
  destruct (qnat_unbounded (potential v u * / eta)) as [k Hk].
  assert (Enz : eta <> 0) by (apply not_eq_sym, Qclt_not_eq; exact Hlr).
  destruct (@clean_epoch_within v M eta (length (weights u)) d) with (k := k) (u := u)
    as [j [_ Hj]].
  - exact Hlr.
  - now rewrite Lv, Ls.
  - intros ex Hin. unfold fits in F. rewrite Forall_forall in F. now apply F.
  - exact Mv.
  - intros ex Hin. unfold M.
    pose proof (@radius2_bound d ex Hin) as R.
    generalize dependent (radius2 d). generalize (norm2 (fst ex)).
    clearbody eta. clear - Hlr. intros. to_Q. nra.
  - split; reflexivity.
  - apply (@Qcmult_lt_compat_r _ _ eta Hlr) in Hk.
    replace (potential v u * / eta * eta) with (potential v u) in Hk
      by (field; exact Enz).
    exact Hk.
  - now exists j.
Qed.

End Convergence.

(** ** A separable data set that binary64 training never learns *)

(** In exact arithmetic the third epoch is the last with an error. In
    binary64 the products [big * w] overflow: in the second example the
    activation is [-inf + inf], a NaN, from the second epoch on, so that
    every epoch raises the second weight by [0.1 * big] until it overflows
    in the twentieth; from then on the activation of [(0, 0)] is
    [0 * inf], a NaN again, and its prediction 0 against the label 1. *)

Module Overflow.

Lemma exact_run :
  map (fun n => epoch_errors (sweeps n fresh_2_exact big_data_exact) big_data_exact)
      [0; 1; 2; 3]%nat
  = [[-1; 1; 0]; [-1; 1; 0]; [-1; 0; 1]; [0; 0; 0]]%Z.
Proof. vm_compute. reflexivity. Qed.

Lemma float_run :
  map (fun n => epoch_errors (sweeps n fresh_2 big_data) big_data)
      [0; 1; 2; 3; 18; 19; 20; 21]%nat
  = [[-1; 1; 0]; [-1; 1; 0]; [-1; 1; 0]; [-1; 1; 0];
     [-1; 1; 0]; [-1; 1; 1]; [0; 0; 1]; [0; 0; 1]]%Z.
Proof. vm_compute. reflexivity. Qed.

Lemma separator_classifies : classifies big_separator big_data.
Proof.
  split.
  - repeat constructor.
  - intros ex [<- | [<- | [<- | []]]]; vm_compute; reflexivity.
Qed.

Lemma stuck_after_20 : stuck (sweeps 20 fresh_2 big_data).
Proof.
  split; [reflexivity |]. exists 0%float. vm_compute. reflexivity.
Qed.

Lemma errors_before_20 (n : nat) :
  (n < 20)%nat -> misclassified (sweeps n fresh_2 big_data) big_data <> 0%nat.
Proof.
  intros H.
  assert (A : forallb (fun k => negb (misclassified (sweeps k fresh_2 big_data) big_data =? 0)%nat)
                (seq 0 20) = true) by (vm_compute; reflexivity).
  rewrite forallb_forall in A. specialize (A n).
  rewrite in_seq in A. specialize (A ltac:(lia)).
  intros E. rewrite E in A. discriminate.
Qed.

Lemma stuck_step (u : Perceptron float) (ex : list float * Z) :
  stuck u -> In ex big_data -> stuck (step u ex).
Proof.
  intros [R [w1 W]] Hin. split; [exact R |].
  unfold step, update, error_of, loss_function, output_of, activation_function.
  rewrite W, R.
  destruct Hin as [<- | [<- | [<- | []]]]; cbn [fst snd];
    destruct (sge0 _); eexists; vm_compute; reflexivity.
Qed.

Lemma stuck_misses_origin (u : Perceptron float) :
  stuck u -> error_of u ([0%float; 0%float], 1%Z) = 1%Z.
Proof.
  intros [_ [w1 W]].
  unfold error_of, loss_function, output_of, activation_function, raw_activation.
  rewrite W. cbn [sdot float64]. unfold sum_in_order.
  cbn [fst snd combine fold_left sadd smul s0 sge0 float64].
  change (0 * infinity)%float with nan.
  now rewrite Float64.add_nan_r, Float64.add_nan_l, Float64.leb_zero_nan.
Qed.

Lemma stuck_misclassifies (u : Perceptron float) :
  stuck u -> misclassified u big_data <> 0%nat.
Proof.
  intros S. unfold big_data. rewrite !misclassified_cons.
  assert (S2 : stuck (step (step u ([big; 0%float], 0%Z)) ([big; big], 1%Z))).
  { apply stuck_step; [apply stuck_step; [exact S |] |]; simpl; auto. }
  rewrite (stuck_misses_origin S2). simpl. lia.
Qed.

Lemma stuck_sweep (u : Perceptron float) : stuck u -> stuck (sweep u big_data).
Proof.
  intros S. unfold big_data, sweep. simpl.
  repeat apply stuck_step; simpl; auto.
Qed.

Lemma stuck_sweeps (n : nat) : forall u, stuck u -> stuck (sweeps n u big_data).
Proof.
  induction n as [| n IH]; intros u S; [exact S |].
  simpl. apply IH. now apply stuck_sweep.
Qed.

Lemma never_clean (n : nat) : misclassified (sweeps n fresh_2 big_data) big_data <> 0%nat.
Proof.
  destruct (Nat.lt_ge_cases n 20) as [L | G].
  - now apply errors_before_20.
  - replace n with (20 + (n - 20))%nat by lia. rewrite sweeps_add.
    apply stuck_misclassifies, stuck_sweeps, stuck_after_20.
Qed.

End Overflow.

(** ** Training on a data set given as two lists *)

Section TrainRuns.

Context {T : Type} {num : Scalar T}.

Lemma train_combine_ok (u : Perceptron T) (xs : list (list T)) (ys : list Z) (n : nat) :
  fits u (combine xs ys) -> train xs ys n u = (Ok tt, sweeps n u (combine xs ys)).
Proof.
  intros F. unfold train. now apply for_range_ok.
Qed.

Lemma init_ok (input_size : Z) (lr : T) :
  (0 <= input_size < 2 ^ 63)%Z ->
  init input_size lr =
    Ok {| weights := repeat s0 (Z.to_nat input_size); bias := s0; learning_rate := lr |}.
Proof.
  intros H. unfold init, np_zeros.
  destruct (Z.ltb_spec input_size (- 2 ^ 63)); [lia |].
  destruct (Z.leb_spec (2 ^ 63) input_size); [lia |].
  destruct (Z.ltb_spec input_size 0); [lia | reflexivity].
Qed.

Lemma init_raise (input_size : Z) (lr : T) :
  (- 2 ^ 63 <= input_size < 0)%Z ->
  init input_size lr = Raise ValueError_negative_dimensions.
Proof.
  intros H. unfold init, np_zeros.
  destruct (Z.ltb_spec input_size (- 2 ^ 63)); [lia |].
  destruct (Z.leb_spec (2 ^ 63) input_size); [lia |].
  destruct (Z.ltb_spec input_size 0); [reflexivity | lia].
Qed.

Lemma init_raise_no_int64 (input_size : Z) (lr : T) :
  (input_size < - 2 ^ 63 \/ 2 ^ 63 <= input_size)%Z ->
  init input_size lr = Raise ValueError_maximum_dimension.
Proof.
  intros H. unfold init, np_zeros.
  destruct (Z.ltb_spec input_size (- 2 ^ 63)); [reflexivity |].
  destruct (Z.leb_spec (2 ^ 63) input_size); [reflexivity | lia].
Qed.

(** A table is learnt for good once ten epochs have reached a unit that one
    more epoch leaves as it is and that answers every row correctly. *)
Lemma learns_from_10 (input_size : Z) (inputs : list (list T)) (outputs : list Z)
    (gate0 : Perceptron T) :
  init input_size default_learning_rate = Ok gate0 ->
  fits gate0 (combine inputs outputs) ->
  sweep (sweeps 10 gate0 (combine inputs outputs)) (combine inputs outputs)
    = sweeps 10 gate0 (combine inputs outputs) ->
  predictions (sweeps 10 gate0 (combine inputs outputs)) inputs = map Ok outputs ->
  forall epochs, (10 <= epochs)%nat -> learns input_size inputs outputs epochs.
Proof.
  intros I F Fix P epochs H.
  exists (sweeps 10 gate0 (combine inputs outputs)). split; [| exact P].
  unfold trained_gate. rewrite I, (train_combine_ok _ _ epochs F).
  replace epochs with (10 + (epochs - 10))%nat at 1 by lia.
  rewrite sweeps_add, sweeps_fixed by exact Fix. reflexivity.
Qed.

End TrainRuns.

(** *** The four gates in binary64 *)

Module GatesFloat.

(** The units the notebook prints after its four training cells. *)
Lemma notebook_gates :
  trained_gate 2 default_learning_rate OR_inputs OR_outputs default_epochs = Ok OR_gate /\
  trained_gate 2 default_learning_rate AND_inputs AND_outputs default_epochs = Ok AND_gate /\
  trained_gate 3 default_learning_rate OR_inputs_3 OR_outputs_3 default_epochs
    = Ok OR_gate_3 /\
  trained_gate 3 default_learning_rate AND_inputs_3 AND_outputs_3 default_epochs
    = Ok AND_gate_3.
Proof.
  repeat split; vm_compute; reflexivity.
Qed.

Lemma float_learns_OR : forall epochs, (10 <= epochs)%nat ->
  learns (T := float) 2 OR_inputs OR_outputs epochs.
Proof.
  eapply learns_from_10;
    [ vm_compute; reflexivity
    | repeat constructor
    | vm_compute; reflexivity
    | vm_compute; reflexivity ].
Qed.

Lemma float_learns_AND : forall epochs, (10 <= epochs)%nat ->
  learns (T := float) 2 AND_inputs AND_outputs epochs.
Proof.
  eapply learns_from_10;
    [ vm_compute; reflexivity
    | repeat constructor
    | vm_compute; reflexivity
    | vm_compute; reflexivity ].
Qed.

Lemma float_learns_OR_3 : forall epochs, (10 <= epochs)%nat ->
  learns (T := float) 3 OR_inputs_3 OR_outputs_3 epochs.
Proof.
  eapply learns_from_10;
    [ vm_compute; reflexivity
    | repeat constructor
    | vm_compute; reflexivity
    | vm_compute; reflexivity ].
Qed.

Lemma float_learns_AND_3 : forall epochs, (10 <= epochs)%nat ->
  learns (T := float) 3 AND_inputs_3 AND_outputs_3 epochs.
Proof.
  eapply learns_from_10;
    [ vm_compute; reflexivity
    | repeat constructor
    | vm_compute; reflexivity
    | vm_compute; reflexivity ].
Qed.

End GatesFloat.

(** *** The four gates in exact arithmetic *)

Module GatesExact.

Lemma clean_epoch_fixed (u : Perceptron Qc) (d : list (list Qc * Z)) :
  fits u d -> misclassified u d = 0%nat -> sweep u d = u.
Proof.
  intros F Z0.
  apply (sweep_zero_errors (Exact.zero_update_neutral_fits F)); [apply incl_refl | exact Z0].
Qed.

Lemma exact_learns_OR : forall epochs, (10 <= epochs)%nat ->
  learns (T := Qc) 2 OR_inputs OR_outputs epochs.
Proof.
  eapply learns_from_10;
    [ reflexivity
    | repeat constructor
    | apply clean_epoch_fixed;
      [ apply fits_sweeps; repeat constructor | vm_compute; reflexivity ]
    | vm_compute; reflexivity ].
Qed.

Lemma exact_learns_AND : forall epochs, (10 <= epochs)%nat ->
  learns (T := Qc) 2 AND_inputs AND_outputs epochs.
Proof.
  eapply learns_from_10;
    [ reflexivity
    | repeat constructor
    | apply clean_epoch_fixed;
      [ apply fits_sweeps; repeat constructor | vm_compute; reflexivity ]
    | vm_compute; reflexivity ].
Qed.

Lemma exact_learns_OR_3 : forall epochs, (10 <= epochs)%nat ->
  learns (T := Qc) 3 OR_inputs_3 OR_outputs_3 epochs.
Proof.
  eapply learns_from_10;
    [ reflexivity
    | repeat constructor
    | apply clean_epoch_fixed;
      [ apply fits_sweeps; repeat constructor | vm_compute; reflexivity ]
    | vm_compute; reflexivity ].
Qed.

Lemma exact_learns_AND_3 : forall epochs, (10 <= epochs)%nat ->
  learns (T := Qc) 3 AND_inputs_3 AND_outputs_3 epochs.
Proof.
  eapply learns_from_10;
    [ reflexivity
    | repeat constructor
    | apply clean_epoch_fixed;
      [ apply fits_sweeps; repeat constructor | vm_compute; reflexivity ]
    | vm_compute; reflexivity ].
Qed.

End GatesExact.

(** ** A unit that has not been trained *)

Module Fresh.

Lemma float_fold_zero (x : list float) : forall w,
  Forall real x -> Forall (fun c => c = 0%float) w ->
  fold_left (fun acc p => sadd acc (smul (fst p) (snd p))) (combine x w) 0%float
  = 0%float.
Proof.
  induction x as [| a x IH]; intros [| c w] Hx Hw; try reflexivity.
  inversion Hx as [| ? ? Ha Hx']; subst. inversion Hw as [| ? ? Hc Hw']; subst.
  simpl. rewrite Float64.add_zero_r.
  - now apply IH.
  - reflexivity.
  - now apply Float64.mul_zero_r.
Qed.

Lemma float_dot_zeros (x : list float) (n : nat) :
  Forall real x -> sdot x (repeat 0%float n) = 0%float.
Proof.
  intros Hx. apply float_fold_zero; [exact Hx |].
  apply Forall_forall. intros c Hc. now apply repeat_spec in Hc.
Qed.

Lemma exact_vdot_zeros (x : list Qc) : forall n,
  vdot x (repeat 0%Qc n) = 0%Qc.
Proof.
  induction x as [| a x IH]; intros [| n]; simpl; try reflexivity.
  rewrite IH. ring.
Qed.

Lemma float_fresh_output (n : nat) (lr : float) (x : list float) :
  Forall real x ->
  output_of {| weights := repeat 0%float n; bias := 0%float; learning_rate := lr |} x = 1%Z.
Proof.
  intros Hx. unfold output_of, raw_activation. simpl weights. simpl bias.
  rewrite (float_dot_zeros n Hx). reflexivity.
Qed.

Lemma exact_fresh_output (n : nat) (lr : Qc) (x : list Qc) :
  output_of {| weights := repeat 0%Qc n; bias := 0%Qc; learning_rate := lr |} x = 1%Z.
Proof.
  unfold output_of, raw_activation. simpl weights. simpl bias.
  rewrite Exact.exact_sums_in_order, Convergence.dot_sum_vdot, exact_vdot_zeros.
  reflexivity.
Qed.

(** An infinite entry is another matter: [0 * inf] is NaN, and NaN is not
    [>= 0]. *)
Lemma fresh_unit_on_infinity :
  predict [infinity] {| weights := [0%float]; bias := 0%float; learning_rate := lit_0_1 |}
  = (Ok 0%Z, {| weights := [0%float]; bias := 0%float; learning_rate := lit_0_1 |}).
Proof. reflexivity. Qed.

End Fresh.

(** ** Raising in the middle of a pass *)

Section Raising.

Context {T : Type} {num : Scalar T}.

Lemma for_each_raise (before : list (list T * Z)) (bad : list T * Z)
    (after : list (list T * Z)) : forall u,
  fits u before ->
  length (fst bad) <> length (weights u) ->
  for_each (before ++ bad :: after) train_body u =
    (Raise (ValueError_shapes_not_aligned (length (fst bad)) (length (weights u))),
     sweep u before).
Proof.
  induction before as [| ex before IH]; intros u F E.
  - simpl. unfold bind. now rewrite train_body_raise.
  - inversion F as [| ? ? Eex F']; subst.
    simpl. unfold bind. rewrite train_body_ok by exact Eex.
    change (sweep u (ex :: before)) with (sweep (step u ex) before).
    rewrite IH.
    + unfold step. now rewrite update_length.
    + now apply fits_step.
    + unfold step. now rewrite update_length.
Qed.

Lemma train_raise (before : list (list T * Z)) (bad : list T * Z)
    (after : list (list T * Z)) (epochs : nat) (u : Perceptron T) :
  fits u before ->
  length (fst bad) <> length (weights u) ->
  (0 < epochs)%nat ->
  train (inputs_of (before ++ bad :: after)) (outputs_of (before ++ bad :: after)) epochs u =
    (Raise (ValueError_shapes_not_aligned (length (fst bad)) (length (weights u))),
     sweep u before).
Proof.
  intros F E H. unfold train. rewrite combine_inputs_outputs.
  destruct epochs as [| epochs]; [lia |].
  simpl. unfold bind. now rewrite for_each_raise.
Qed.

End Raising.

(** ** The two kernels *)

Module Rounding.

(** The kernel decides the prediction of [near_tie] on [(0.1, 0.1)]: the
    activation is 0 when each product is rounded and about [-1.7e-18] when
    the second is fused. *)
Lemma kernels_part_on_a_prediction :
  @predict float float64 [0x1.999999999999ap-4%float; 0x1.999999999999ap-4%float] near_tie
    = (Ok 1%Z, near_tie) /\
  @predict float float64_fused
     [0x1.999999999999ap-4%float; 0x1.999999999999ap-4%float] near_tie
    = (Ok 0%Z, near_tie).
Proof.
  split; vm_compute; reflexivity.
Qed.

(** And one epoch on [near_tie_data] from [Perceptron(2)]: the third
    example is predicted right with the one kernel and wrong with the
    other. *)
Lemma kernels_part_on_a_run :
  @train float float64 (inputs_of near_tie_data) (outputs_of near_tie_data) 1 fresh_2
    = (Ok tt,
       {| weights := [0x1.999999999999ap-4%float; (-0x1.999999999999ap-4)%float];
          bias := 0%float;
          learning_rate := lit_0_1 |}) /\
  @train float float64_fused (inputs_of near_tie_data) (outputs_of near_tie_data) 1 fresh_2
    = (Ok tt,
       {| weights := [0x1.0a3d70a3d70a4p-3%float; (-0x1.1eb851eb851ecp-4)%float];
          bias := 0x1.999999999999ap-4%float;
          learning_rate := lit_0_1 |}) /\
  @epoch_errors float float64 fresh_2 near_tie_data = [(-1)%Z; 1%Z; 0%Z] /\
  @epoch_errors float float64_fused fresh_2 near_tie_data = [(-1)%Z; 1%Z; 1%Z].
Proof.
  repeat split; vm_compute; reflexivity.
Qed.

End Rounding.

(** * The claims *)



(** C2. For a data set whose labels are 0 or 1 and a positive number of
    epochs, [train] returns the unit obtained by sweeping the data set
    [epochs] times in its order, each example being predicted by [predict]
    with the parameters current at that moment and its update
    [weight[i] += learning_rate * error * input[i]],
    [bias += learning_rate * error] applied before the next example; the
    error of every example is -1, 0 or 1. So in every arithmetic and for
    every kernel of [np.dot]. *)
Theorem train_follows_update_rule
    (T : Type) (num : Scalar T)
    (u : Perceptron T) (d : list (list T * Z)) (epochs : nat) :
  fits u d ->
  Forall (fun ex => snd ex = 0%Z \/ snd ex = 1%Z) d ->
  (0 < epochs)%nat ->
  train (inputs_of d) (outputs_of d) epochs u = (Ok tt, spec_train d epochs u) /\
  (forall (v : Perceptron T) ex,
     In ex d -> length (weights v) = length (weights u) ->
     predict (fst ex) v = (Ok (output_of v (fst ex)), v) /\
     let error := (snd ex - output_of v (fst ex))%Z in
     error = (-1)%Z \/ error = 0%Z \/ error = 1%Z).
Proof.
  intros F L _. split.
  - rewrite (train_ok _ F). now rewrite sweeps_spec.
  - intros v ex Hin Lv. split.
    + apply predict_ok. rewrite Lv.
      unfold fits in F. rewrite Forall_forall in F. now apply F.
    + rewrite Forall_forall in L. specialize (L ex Hin).
      unfold output_of, activation_function.
      destruct (sge0 _); destruct L as [-> | ->]; simpl; auto.
Qed.

Lemma train_follows_update_rule_witness :
  @train float float64_fused (inputs_of near_tie_data) (outputs_of near_tie_data) 1 fresh_2
  = (Ok tt, @spec_train float float64_fused near_tie_data 1 fresh_2) /\
  (forall (v : Perceptron float) ex,
     In ex near_tie_data ->
     length (weights v) = length (weights fresh_2) ->
     @predict float float64_fused (fst ex) v
       = (Ok (@output_of float float64_fused v (fst ex)), v) /\
     let error := (snd ex - @output_of float float64_fused v (fst ex))%Z in
     error = (-1)%Z \/ error = 0%Z \/ error = 1%Z).
Proof.
  apply (@train_follows_update_rule float float64_fused).
  - repeat constructor.
  - repeat (apply Forall_cons; [simpl; auto |]). apply Forall_nil.
  - lia.
Defined.

(** C3. From zero weights and bias with learning rate 0.1, every number of
    epochs from 10 on leaves a gate whose predictions on the rows of the
    table are the table's outputs: OR and AND on two inputs, OR and AND on
    three inputs; in binary64 as well as in exact arithmetic. *)
Theorem truth_tables_learnt (epochs : nat) :
  (10 <= epochs)%nat ->
  (learns (T := float) 2 OR_inputs OR_outputs epochs /\
   learns (T := float) 2 AND_inputs AND_outputs epochs /\
   learns (T := float) 3 OR_inputs_3 OR_outputs_3 epochs /\
   learns (T := float) 3 AND_inputs_3 AND_outputs_3 epochs) /\
  (learns (T := Qc) 2 OR_inputs OR_outputs epochs /\
   learns (T := Qc) 2 AND_inputs AND_outputs epochs /\
   learns (T := Qc) 3 OR_inputs_3 OR_outputs_3 epochs /\
   learns (T := Qc) 3 AND_inputs_3 AND_outputs_3 epochs).
Proof.
  intros H. split; repeat split.
  - now apply GatesFloat.float_learns_OR.
  - now apply GatesFloat.float_learns_AND.
  - now apply GatesFloat.float_learns_OR_3.
  - now apply GatesFloat.float_learns_AND_3.
  - now apply GatesExact.exact_learns_OR.
  - now apply GatesExact.exact_learns_AND.
  - now apply GatesExact.exact_learns_OR_3.
  - now apply GatesExact.exact_learns_AND_3.
Qed.

Lemma truth_tables_learnt_witness :
  learns (T := float) 2 OR_inputs OR_outputs 10 /\
  learns (T := float) 3 AND_inputs_3 AND_outputs_3 25.
Proof.
  split.
  - exact (proj1 (proj1 (@truth_tables_learnt 10 ltac:(lia)))).
  - exact (proj2 (proj2 (proj2 (proj1 (@truth_tables_learnt 25 ltac:(lia)))))).
Defined.

(** C4. If an epoch over a data set passes without a misclassification,
    the epoch after [k] epochs of training, then training for any larger
    number of epochs returns the very weights and bias reached after [k],
    and each further epoch counts zero misclassifications again. In binary64
    this is for a finite learning rate and finite inputs, from a unit none
    of whose parameters is the negative zero, as [__init__] builds them; in
    exact arithmetic it is unconditional. *)
Theorem clean_epoch_is_fixed_point :
  (forall (u0 : Perceptron float) (d : list (list float * Z)) (k : nat),
     plain_unit u0 -> real_data d -> fits u0 d ->
     misclassified (sweeps k u0 d) d = 0%nat ->
     forall m, (k <= m)%nat ->
       train (inputs_of d) (outputs_of d) m u0 = (Ok tt, sweeps k u0 d) /\
       misclassified (sweeps m u0 d) d = 0%nat) /\
  (forall (u0 : Perceptron Qc) (d : list (list Qc * Z)) (k : nat),
     fits u0 d ->
     misclassified (sweeps k u0 d) d = 0%nat ->
     forall m, (k <= m)%nat ->
       train (inputs_of d) (outputs_of d) m u0 = (Ok tt, sweeps k u0 d) /\
       misclassified (sweeps m u0 d) d = 0%nat).
Proof.
  split.
  - intros u0 d k P R F Z0 m Hm.
    assert (S : sweeps m u0 d = sweeps k u0 d).
    { replace m with (k + (m - k))%nat by lia. rewrite sweeps_add.
      apply sweeps_zero_errors; [| exact Z0].
      apply FloatUnit.zero_update_neutral_plain;
        [now apply FloatUnit.plain_sweeps | exact R | now apply fits_sweeps]. }
    rewrite (train_ok _ F), S. now split.
  - intros u0 d k F Z0 m Hm.
    assert (S : sweeps m u0 d = sweeps k u0 d).
    { replace m with (k + (m - k))%nat by lia. rewrite sweeps_add.
      apply sweeps_zero_errors; [| exact Z0].
      apply Exact.zero_update_neutral_fits. now apply fits_sweeps. }
    rewrite (train_ok _ F), S. now split.
Qed.

Lemma clean_epoch_is_fixed_point_witness :
  train (inputs_of (combine (AND_inputs (T := float)) AND_outputs))
        (outputs_of (combine (AND_inputs (T := float)) AND_outputs)) 17 fresh_2
    = (Ok tt, sweeps 3 fresh_2 (combine AND_inputs AND_outputs)) /\
  misclassified (sweeps 17 fresh_2 (combine AND_inputs AND_outputs))
    (combine AND_inputs AND_outputs) = 0%nat.
Proof.
  apply (proj1 clean_epoch_is_fixed_point).
  - apply (@FloatUnit.plain_init 2 lit_0_1); reflexivity.
  - repeat constructor.
  - repeat constructor.
  - vm_compute. reflexivity.
  - lia.
Defined.

(** C5, as stated, fails in binary64: the three finite examples of
    [big_data] are separated by the hyperplane [-x0 + 1.5 x1 >= 0], yet
    from [Perceptron(2)] every epoch of training, however many came before,
    misclassifies an example (the second weight overflows to infinity after
    20 epochs, and the activation of [(0, 0)] is NaN from then on). *)
Lemma separable_data_never_learnt :
  separable big_data /\
  init 2 default_learning_rate = Ok fresh_2 /\
  (forall n,
     train (inputs_of big_data) (outputs_of big_data) n fresh_2
       = (Ok tt, sweeps n fresh_2 big_data) /\
     misclassified (sweeps n fresh_2 big_data) big_data <> 0%nat).
Proof.
  split; [exists big_separator; apply Overflow.separator_classifies |].
  split; [reflexivity |].
  intros n. split.
  - apply train_ok. repeat constructor.
  - apply Overflow.never_clean.
Qed.

(** C5, amended. In exact arithmetic, for a positive learning rate and a
    linearly separable data set, [train] on a fresh unit returns, for every
    number of epochs, the unit that so many sweeps produce (it stops no
    earlier), and there is a number [N] of epochs from which on that unit
    is the one reached after [N]: every further epoch leaves it unchanged,
    counts zero misclassifications, and the unit predicts the label of
    every example. *)
Theorem exact_training_converges
    (n : nat) (lr : Qc) (d : list (list Qc * Z)) (u0 : Perceptron Qc) :
  (0 < lr)%Qc ->
  init (Z.of_nat n) lr = Ok u0 ->
  fits u0 d ->
  separable d ->
  (forall m, train (inputs_of d) (outputs_of d) m u0 = (Ok tt, sweeps m u0 d)) /\
  exists N, forall m, (N <= m)%nat ->
    sweeps m u0 d = sweeps N u0 d /\
    misclassified (sweeps m u0 d) d = 0%nat /\
    (forall ex, In ex d ->
       predict (fst ex) (sweeps m u0 d) = (Ok (snd ex), sweeps m u0 d)).
Proof.
  intros Hlr I F S.
  split; [intros m; now apply train_ok |].
  assert (L : learning_rate u0 = lr).
  { apply init_inv in I as [_ ->]. reflexivity. }
  destruct (@Convergence.clean_epoch_exists u0 d) as [N HN];
    [now rewrite L | exact F | exact S |].
  exists N. intros m Hm.
  assert (FN : fits (sweeps N u0 d) d) by now apply fits_sweeps.
  assert (Neu : zero_update_neutral (sweeps N u0 d) d)
    by now apply Exact.zero_update_neutral_fits.
  assert (Em : sweeps m u0 d = sweeps N u0 d).
  { replace m with (N + (m - N))%nat by lia. rewrite sweeps_add.
    now apply sweeps_zero_errors. }
  split; [exact Em |].
  rewrite Em. split; [exact HN |].
  intros ex Hin.
  assert (Eex : length (fst ex) = length (weights (sweeps N u0 d))).
  { unfold fits in FN. rewrite Forall_forall in FN. now apply FN. }
  rewrite (predict_ok _ _ Eex). f_equal. f_equal.
  pose proof (zero_errors_everywhere Neu HN ex Hin) as E0.
  unfold error_of, loss_function in E0. lia.
Qed.

Lemma exact_training_converges_witness :
  (forall m,
     train (inputs_of big_data_exact) (outputs_of big_data_exact) m fresh_2_exact
       = (Ok tt, sweeps m fresh_2_exact big_data_exact)) /\
  exists N, forall m, (N <= m)%nat ->
    sweeps m fresh_2_exact big_data_exact = sweeps N fresh_2_exact big_data_exact /\
    misclassified (sweeps m fresh_2_exact big_data_exact) big_data_exact = 0%nat /\
    (forall ex, In ex big_data_exact ->
       predict (fst ex) (sweeps m fresh_2_exact big_data_exact)
       = (Ok (snd ex), sweeps m fresh_2_exact big_data_exact)).
Proof.
  apply (@exact_training_converges 2 lit_0_1).
  - reflexivity.
  - reflexivity.
  - repeat constructor.
  - exists {| weights := [Q2Qc (-1); Q2Qc (3 # 2)]; bias := Q2Qc 0;
              learning_rate := Q2Qc 1 |}.
    split; [repeat constructor |].
    intros ex [<- | [<- | [<- | []]]]; vm_compute; reflexivity.
Defined.

(** C6. Two runs of the same cell (the same [input_size] and
    [learning_rate], the same data in the same order, the same number of
    epochs) end alike: both raise the same exception or both leave equal
    units, weight for weight and bias for bias, and these answer any input
    alike. *)
Theorem training_is_deterministic
    (T : Type) (num : Scalar T) (input_size : Z) (lr : T)
    (inputs : list (list T)) (outputs : list Z) (epochs : nat)
    (run1 run2 : result (Perceptron T)) :
  run1 = trained_gate input_size lr inputs outputs epochs ->
  run2 = trained_gate input_size lr inputs outputs epochs ->
  run1 = run2 /\
  (forall gate1 gate2, run1 = Ok gate1 -> run2 = Ok gate2 ->
     weights gate1 = weights gate2 /\ bias gate1 = bias gate2 /\
     forall x, fst (predict x gate1) = fst (predict x gate2)).
Proof.
  intros -> ->. split; [reflexivity |].
  intros gate1 gate2 E1 E2. rewrite E1 in E2. injection E2 as <-.
  repeat split.
Qed.

Lemma training_is_deterministic_witness :
  Ok OR_gate = Ok OR_gate /\
  (forall gate1 gate2 : Perceptron float,
     Ok OR_gate = Ok gate1 -> Ok OR_gate = Ok gate2 ->
     weights gate1 = weights gate2 /\ bias gate1 = bias gate2 /\
     forall x, fst (predict x gate1) = fst (predict x gate2)).
Proof.
  apply (@training_is_deterministic float float64 2 default_learning_rate
           OR_inputs OR_outputs default_epochs).
  - vm_compute. reflexivity.
  - vm_compute. reflexivity.
Defined.




(** C8, as stated, fails: [Perceptron(0)] and [Perceptron(2, 0.0)] are both
    constructed, the first with an empty weight vector, the second with the
    learning rate 0. *)
Lemma init_accepts_zero_size_and_zero_rate :
  init 0 default_learning_rate
    = Ok {| weights := []; bias := 0%float; learning_rate := lit_0_1 |} /\
  init 2 0%float
    = Ok {| weights := [0%float; 0%float]; bias := 0%float; learning_rate := 0%float |}.
Proof.
  split; reflexivity.
Qed.

(** C8, amended. Construction checks neither argument; it fails where
    [np.zeros] does: on every negative [input_size] (with "negative
    dimensions are not allowed" when the size is an [int64]) and on one of
    [2^63] or more. Whenever it returns, and it does for the size 0, the
    unit has [input_size] zero weights, zero bias and the learning rate as
    given, and any other learning rate would have been stored in its
    place. *)
Theorem init_fails_only_where_np_zeros_does
    (T : Type) (num : Scalar T) (input_size : Z) (lr : T) :
  ((input_size < 0)%Z -> exists e, init input_size lr = Raise e) /\
  ((- 2 ^ 63 <= input_size < 0)%Z ->
     init input_size lr = Raise ValueError_negative_dimensions) /\
  ((2 ^ 63 <= input_size)%Z ->
     init input_size lr = Raise ValueError_maximum_dimension) /\
  (forall u, init input_size lr = Ok u ->
     (0 <= input_size < 2 ^ 63)%Z /\
     u = {| weights := repeat s0 (Z.to_nat input_size);
            bias := s0;
            learning_rate := lr |} /\
     forall lr', init input_size lr' =
       Ok {| weights := weights u; bias := bias u; learning_rate := lr' |}) /\
  init 0 lr = Ok {| weights := []; bias := s0; learning_rate := lr |}.
Proof.
  split.
  { intros N. destruct (Z_lt_le_dec input_size (- 2 ^ 63)) as [H | H].
    - eexists. apply init_raise_no_int64. now left.
    - eexists. apply init_raise. split; assumption. }
  split; [apply init_raise |].
  split; [intros H; apply init_raise_no_int64; now right |].
  split; [| reflexivity].
  intros u I. apply init_inv in I as [R ->].
  split; [exact R |]. split; [reflexivity |].
  intros lr'. now apply init_ok.
Qed.

Lemma init_fails_only_where_np_zeros_does_witness :
  init (-1) (lit_0_1 : float) = Raise ValueError_negative_dimensions /\
  init (2 ^ 63) (lit_0_1 : float) = Raise ValueError_maximum_dimension /\
  ((0 <= 3 < 2 ^ 63)%Z /\
   {| weights := [0%float; 0%float; 0%float]; bias := 0%float; learning_rate := nan |}
   = {| weights := repeat s0 (Z.to_nat 3); bias := s0; learning_rate := nan |} /\
   forall lr' : float,
     init 3 lr' =
       Ok {| weights := [0%float; 0%float; 0%float]; bias := 0%float;
             learning_rate := lr' |}).
Proof.
  split; [| split].
  - apply (proj1 (proj2 (@init_fails_only_where_np_zeros_does float float64
                           (-1) lit_0_1))).
    split; [discriminate | reflexivity].
  - apply (proj1 (proj2 (proj2 (@init_fails_only_where_np_zeros_does float float64
                                  (2 ^ 63) lit_0_1)))).
    discriminate.
  - apply (proj1 (proj2 (proj2 (proj2 (@init_fails_only_where_np_zeros_does
                                         float float64 3 nan))))
             {| weights := [0%float; 0%float; 0%float]; bias := 0%float;
                learning_rate := nan |}).
    reflexivity.
Defined.

(** C9, as stated, fails: [train] on the single example [(1, 1) -> 2]
    returns normally; the label 2 has entered the update as the error
    [2 - 1 = 1] in each of the three epochs. *)
Lemma label_two_is_trained_on :
  train [[1%float; 1%float]] [2%Z] 3 fresh_2
    = (Ok tt,
       {| weights := [0x1.3333333333334p-2%float; 0x1.3333333333334p-2%float];
          bias := 0x1.3333333333334p-2%float;
          learning_rate := lit_0_1 |}) /\
  epoch_errors fresh_2 [([1%float; 1%float], 2%Z)] = [1%Z].
Proof.
  split; vm_compute; reflexivity.
Qed.

(** C9, amended. [train] looks at no label. On rows that are arrays of
    the unit's length and expected outputs that are integers of the [int64]
    range it returns normally, each example having been applied with the
    error [expected_output - prediction], an [int64] again; for an
    expected output other than 0 and 1 this error is never 0, so that a
    data set with such an example has a misclassification in every epoch. *)
Theorem train_accepts_any_label
    (T : Type) (num : Scalar T) (u : Perceptron T) (d : list (list T * Z))
    (epochs : nat) :
  fits u d ->
  Forall (fun ex => int64_label (snd ex)) d ->
  train (inputs_of d) (outputs_of d) epochs u = (Ok tt, sweeps epochs u d) /\
  (forall (v : Perceptron T) ex,
     In ex d -> (- 2 ^ 63 <= error_of v ex < 2 ^ 63)%Z) /\
  (forall (v : Perceptron T) ex,
     snd ex <> 0%Z -> snd ex <> 1%Z -> error_of v ex <> 0%Z) /\
  ((exists ex, In ex d /\ snd ex <> 0%Z /\ snd ex <> 1%Z) ->
   forall n, (0 < misclassified (sweeps n u d) d)%nat).
Proof.
  intros F L. split; [now apply train_ok |].
  split.
  { intros v ex Hin. apply int64_error.
    rewrite Forall_forall in L. now apply L. }
  split; [intros v ex; apply odd_label_error |].
  intros [ex (Hin & N0 & N1)] n.
  apply misclassified_pos with (ex := ex); [exact Hin |].
  intros v. now apply odd_label_error.
Qed.

Lemma train_accepts_any_label_witness :
  train (inputs_of [([1%float; 1%float], 7%Z)]) (outputs_of [([1%float; 1%float], 7%Z)])
        1 fresh_2
    = (Ok tt, sweeps 1 fresh_2 [([1%float; 1%float], 7%Z)]) /\
  (forall (v : Perceptron float) ex,
     In ex [([1%float; 1%float], 7%Z)] -> (- 2 ^ 63 <= error_of v ex < 2 ^ 63)%Z) /\
  (forall (v : Perceptron float) ex,
     snd ex <> 0%Z -> snd ex <> 1%Z -> error_of v ex <> 0%Z) /\
  ((exists ex, In ex [([1%float; 1%float], 7%Z)] /\ snd ex <> 0%Z /\ snd ex <> 1%Z) ->
   forall n,
     (0 < misclassified (sweeps n fresh_2 [([1%float; 1%float], 7%Z)])
            [([1%float; 1%float], 7%Z)])%nat).
Proof.
  apply (@train_accepts_any_label float float64).
  - repeat constructor.
  - repeat (apply Forall_cons; [split; reflexivity |]). apply Forall_nil.
Defined.

(** C10. A unit as [__init__] leaves it answers 1 to every input of its
    size, the activation being exactly zero: in binary64 for inputs
    without infinities and NaNs, in exact arithmetic for all inputs. *)
Theorem fresh_unit_predicts_one :
  (forall (n : nat) (lr : float) (u : Perceptron float) (x : list float),
     init (Z.of_nat n) lr = Ok u -> length x = n -> Forall real x ->
     raw_activation u x = 0%float /\ predict x u = (Ok 1%Z, u)) /\
  (forall (n : nat) (lr : Qc) (u : Perceptron Qc) (x : list Qc),
     init (Z.of_nat n) lr = Ok u -> length x = n ->
     raw_activation u x = 0%Qc /\ predict x u = (Ok 1%Z, u)).
Proof.
  split.
  - intros n lr u x I L R.
    apply init_inv in I as [_ ->]. rewrite Nat2Z.id.
    split.
    + unfold raw_activation. simpl weights. simpl bias.
      rewrite (Fresh.float_dot_zeros n R). reflexivity.
    + rewrite predict_ok by (simpl; now rewrite repeat_length).
      now rewrite Fresh.float_fresh_output.
  - intros n lr u x I L.
    apply init_inv in I as [_ ->]. rewrite Nat2Z.id.
    split.
    + unfold raw_activation. simpl weights. simpl bias.
      rewrite Exact.exact_sums_in_order, Convergence.dot_sum_vdot,
        Fresh.exact_vdot_zeros.
      reflexivity.
    + rewrite predict_ok by (simpl; now rewrite repeat_length).
      now rewrite Fresh.exact_fresh_output.
Qed.

Lemma fresh_unit_predicts_one_witness :
  raw_activation fresh_2 [big; (-1)%float] = 0%float /\
  predict [big; (-1)%float] fresh_2 = (Ok 1%Z, fresh_2).
Proof.
  apply (proj1 fresh_unit_predicts_one 2%nat lit_0_1).
  - reflexivity.
  - reflexivity.
  - repeat constructor.
Defined.

(** * Further properties *)

(** ** Loops of method bodies *)

Section Loops.

Context {S : Type}.

Lemma for_range_add (body : M S unit) (a b : nat) : forall s,
  for_range (a + b) body s = (for_range a body ;; for_range b body) s.
Proof.
  induction a as [| a IH]; intros s; [reflexivity |].
  simpl. unfold bind. destruct (body s) as [[[] | e] s']; [| reflexivity].
  rewrite IH. reflexivity.
Qed.

Lemma for_each_preserves {A : Type} (P : S -> Prop) (body : A -> M S unit) :
  forall l,
  (forall a s, In a l -> P s -> P (snd (body a s))) ->
  forall s, P s -> P (snd (for_each l body s)).
Proof.
  induction l as [| a l IH]; intros B s Ps; [exact Ps |].
  simpl. unfold bind. pose proof (B a s (or_introl eq_refl) Ps) as Ba.
  destruct (body a s) as [[[] | e] s']; simpl in *; [| exact Ba].
  apply IH; [| exact Ba]. intros a' t Hin. apply B. now right.
Qed.

Lemma for_range_preserves (P : S -> Prop) (body : M S unit) :
  (forall s, P s -> P (snd (body s))) ->
  forall n s, P s -> P (snd (for_range n body s)).
Proof.
  intros B n. induction n as [| n IH]; intros s Ps; [exact Ps |].
  simpl. unfold bind. specialize (B s Ps).
  destruct (body s) as [[[] | e] s']; simpl in *; [now apply IH | exact B].
Qed.

End Loops.

(** ** What [train] does to the unit, whatever it is given *)

Section TrainShape.

Context {T : Type} {num : Scalar T}.

Lemma train_body_cases (u : Perceptron T) (ex : list T * Z) :
  train_body ex u = (Ok tt, step u ex) /\ length (fst ex) = length (weights u) \/
  train_body ex u =
    (Raise (ValueError_shapes_not_aligned (length (fst ex)) (length (weights u))), u) /\
  length (fst ex) <> length (weights u).
Proof.
  destruct (Nat.eq_dec (length (fst ex)) (length (weights u))) as [E | E].
  - left. split; [now apply train_body_ok | exact E].
  - right. split; [now apply train_body_raise | exact E].
Qed.

Lemma train_preserves (P : Perceptron T -> Prop)
    (xs : list (list T)) (ys : list Z) :
  (forall u ex, In ex (combine xs ys) -> P u ->
     length (fst ex) = length (weights u) -> P (step u ex)) ->
  forall n u, P u -> P (snd (train xs ys n u)).
Proof.
  intros U n u Pu. unfold train.
  apply for_range_preserves; [| exact Pu].
  intros s Ps. apply for_each_preserves; [| exact Ps].
  intros ex s' Hin Ps'.
  destruct (train_body_cases s' ex) as [[-> E] | [-> _]]; simpl; [| exact Ps'].
  now apply U.
Qed.

Lemma misfit_split (u : Perceptron T) (d : list (list T * Z)) :
  ~ fits u d ->
  exists before bad after,
    d = before ++ bad :: after /\ fits u before /\
    length (fst bad) <> length (weights u).
Proof.
  induction d as [| ex d IH]; intros NF.
  - exfalso. apply NF. constructor.
  - destruct (Nat.eq_dec (length (fst ex)) (length (weights u))) as [E | E].
    + destruct IH as (before & bad & after & -> & F & B).
      { intros F. apply NF. now constructor. }
      exists (ex :: before), bad, after. repeat split; [| exact B].
      now constructor.
    + exists [], ex, d. repeat split; [constructor | exact E].
Qed.

Lemma combine_surplus_l {A B : Type} (xs : list A) : forall (ys : list B) more,
  length xs = length ys -> combine (xs ++ more) ys = combine xs ys.
Proof.
  induction xs as [| x xs IH]; intros [| y ys] more E; try discriminate.
  - simpl. now destruct more.
  - simpl in *. injection E as E. now rewrite IH.
Qed.

Lemma combine_surplus_r {A B : Type} (xs : list A) : forall (ys : list B) more,
  length xs = length ys -> combine xs (ys ++ more) = combine xs ys.
Proof.
  induction xs as [| x xs IH]; intros [| y ys] more E; try discriminate.
  - reflexivity.
  - simpl in *. injection E as E. now rewrite IH.
Qed.

End TrainShape.

(** X1. On rows that are arrays and expected outputs that are integers of
    the [int64] range, [train] returns normally exactly when it is asked
    for no epoch or every example that [zip] pairs has as many entries as
    the unit has weights, and then returns the unit the sweeps produce.
    Otherwise it raises, and what it raises is the shape error of [np.dot]
    for an example of another length: no such label, no entry of a row and
    no number of epochs makes it raise anything else. Every error signal
    is an [int64] again. *)
Theorem train_raises_exactly_on_misfit
    (T : Type) (num : Scalar T) (u : Perceptron T)
    (xs : list (list T)) (ys : list Z) (n : nat) :
  Forall (fun ex => int64_label (snd ex)) (combine xs ys) ->
  ((exists u', train xs ys n u = (Ok tt, u')) <->
     (n = 0%nat \/ fits u (combine xs ys))) /\
  (n = 0%nat \/ fits u (combine xs ys) ->
     train xs ys n u = (Ok tt, sweeps n u (combine xs ys))) /\
  (forall e u', train xs ys n u = (Raise e, u') ->
     exists bad, In bad (combine xs ys) /\
       length (fst bad) <> length (weights u) /\
       e = ValueError_shapes_not_aligned (length (fst bad)) (length (weights u))) /\
  (forall (v : Perceptron T) ex,
     In ex (combine xs ys) -> (- 2 ^ 63 <= error_of v ex < 2 ^ 63)%Z).
Proof.
  intros L.
  assert (OK : n = 0%nat \/ fits u (combine xs ys) ->
               train xs ys n u = (Ok tt, sweeps n u (combine xs ys))).
  { intros [-> | F]; [reflexivity | now apply train_combine_ok]. }
  assert (KO : (0 < n)%nat -> ~ fits u (combine xs ys) ->
               exists bad u', In bad (combine xs ys) /\
                 length (fst bad) <> length (weights u) /\
                 train xs ys n u =
                   (Raise (ValueError_shapes_not_aligned (length (fst bad))
                             (length (weights u))), u')).
  { intros Hn NF.
    destruct (misfit_split NF) as (before & bad & after & E & F & B).
    exists bad, (sweep u before). split; [rewrite E; apply in_elt |].
    split; [exact B |].
    unfold train. rewrite E. destruct n as [| n]; [lia |].
    simpl. unfold bind. now rewrite for_each_raise. }
  assert (D : n = 0%nat \/ fits u (combine xs ys) \/
              ((0 < n)%nat /\ ~ fits u (combine xs ys))).
  { destruct n as [| n]; [now left | right].
    destruct (Forall_dec (fun ex : list T * Z => length (fst ex) = length (weights u))
                (fun ex => Nat.eq_dec (length (fst ex)) (length (weights u)))
                (combine xs ys)) as [F | NF].
    - now left.
    - right. split; [lia | exact NF]. }
  split; [| split; [| split]].
  - split.
    + intros [u' E]. destruct D as [H | [H | [Hn NF]]]; [now left | now right |].
      destruct (KO Hn NF) as (bad & u'' & _ & _ & R). rewrite R in E. discriminate.
    + intros H. eexists. now apply OK.
  - exact OK.
  - intros e u' R. destruct D as [H | [H | [Hn NF]]].
    + rewrite (OK (or_introl H)) in R. discriminate.
    + rewrite (OK (or_intror H)) in R. discriminate.
    + destruct (KO Hn NF) as (bad & u'' & I & B & R'). rewrite R' in R.
      injection R as <- _. now exists bad.
  - intros v ex Hin. apply int64_error.
    rewrite Forall_forall in L. now apply L.
Qed.

Lemma train_raises_exactly_on_misfit_witness :
  ((exists u', train [[1%float; 1%float]; [1%float]] [5%Z; 1%Z] 3 fresh_2 = (Ok tt, u')) <->
     (3 = 0 \/ fits fresh_2 (combine [[1%float; 1%float]; [1%float]] [5%Z; 1%Z]))%nat) /\
  ((3 = 0 \/ fits fresh_2 (combine [[1%float; 1%float]; [1%float]] [5%Z; 1%Z]))%nat ->
     train [[1%float; 1%float]; [1%float]] [5%Z; 1%Z] 3 fresh_2
     = (Ok tt, sweeps 3 fresh_2 (combine [[1%float; 1%float]; [1%float]] [5%Z; 1%Z]))) /\
  (forall e u', train [[1%float; 1%float]; [1%float]] [5%Z; 1%Z] 3 fresh_2 = (Raise e, u') ->
     exists bad, In bad (combine [[1%float; 1%float]; [1%float]] [5%Z; 1%Z]) /\
       length (fst bad) <> length (weights fresh_2) /\
       e = ValueError_shapes_not_aligned (length (fst bad)) (length (weights fresh_2))) /\
  (forall (v : Perceptron float) ex,
     In ex (combine [[1%float; 1%float]; [1%float]] [5%Z; 1%Z]) ->
     (- 2 ^ 63 <= error_of v ex < 2 ^ 63)%Z).
Proof.
  apply (@train_raises_exactly_on_misfit float float64).
  repeat (apply Forall_cons; [split; reflexivity |]). apply Forall_nil.
Defined.

(** X2. [zip] stops at the shorter of its two arguments: rows of
    [input_vectors] beyond the last expected output, and expected outputs
    beyond the last row, are never looked at, whatever they are. *)
Theorem train_ignores_surplus
    (T : Type) (num : Scalar T) (u : Perceptron T)
    (xs more_xs : list (list T)) (ys more_ys : list Z) (n : nat) :
  length xs = length ys ->
  train (xs ++ more_xs) ys n u = train xs ys n u /\
  train xs (ys ++ more_ys) n u = train xs ys n u.
Proof.
  intros E. unfold train.
  now rewrite combine_surplus_l, combine_surplus_r.
Qed.

Lemma train_ignores_surplus_witness :
  train ([[0%float; 0%float]] ++ [[1%float]]) [0%Z] 4 fresh_2
    = train [[0%float; 0%float]] [0%Z] 4 fresh_2 /\
  train [[0%float; 0%float]] ([0%Z] ++ [5%Z; 1%Z]) 4 fresh_2
    = train [[0%float; 0%float]] [0%Z] 4 fresh_2.
Proof.
  apply (@train_ignores_surplus float float64). reflexivity.
Defined.

(** X3. Training resumes where it stopped: one call of [train] for
    [a + b] epochs does to the unit, and returns or raises, what a call for
    [a] epochs followed by a call for [b] epochs on the same data does. *)
Theorem train_resumes
    (T : Type) (num : Scalar T) (u : Perceptron T)
    (xs : list (list T)) (ys : list Z) (a b : nat) :
  train xs ys (a + b) u = (train xs ys a ;; train xs ys b) u.
Proof.
  unfold train. apply for_range_add.
Qed.

(** X4. Whatever it is given and whether it returns or raises, [train]
    leaves the learning rate as it was and the weight vector as long as it
    was. *)
Theorem train_keeps_rate_and_size
    (T : Type) (num : Scalar T) (u : Perceptron T)
    (xs : list (list T)) (ys : list Z) (n : nat) :
  learning_rate (snd (train xs ys n u)) = learning_rate u /\
  length (weights (snd (train xs ys n u))) = length (weights u).
Proof.
  apply (@train_preserves T num
           (fun v => learning_rate v = learning_rate u /\
                     length (weights v) = length (weights u))).
  - intros v ex _ [R L] E. split; [exact R |].
    unfold step. now rewrite update_length.
  - now split.
Qed.

(** X5. No gate that a training cell leaves has a negative zero among its
    weights or as its bias, when the learning rate is finite: [__init__]
    starts from positive zeros and no sum of the update is a negative zero
    unless its first term is. *)
Theorem trained_gate_has_no_negative_zero
    (input_size : Z) (lr : float) (xs : list (list float)) (ys : list Z) (n : nat)
    (gate : Perceptron float) :
  real lr ->
  trained_gate input_size lr xs ys n = Ok gate ->
  Forall no_neg_zero (weights gate) /\ no_neg_zero (bias gate).
Proof.
  intros R E. unfold trained_gate in E.
  destruct (init input_size lr) as [u0 |] eqn:I; [| discriminate].
  pose proof (@FloatUnit.plain_init input_size lr u0 I R) as P0.
  assert (P : plain_unit (snd (train xs ys n u0))).
  { apply train_preserves; [| exact P0].
    intros v ex _ Pv _. now apply FloatUnit.plain_update. }
  destruct (train xs ys n u0) as [[[] | e] u']; [| discriminate].
  injection E as <-. simpl in P. apply P.
Qed.

Lemma trained_gate_has_no_negative_zero_witness :
  Forall no_neg_zero (weights AND_gate) /\ no_neg_zero (bias AND_gate).
Proof.
  apply (@trained_gate_has_no_negative_zero 2 lit_0_1 AND_inputs AND_outputs 10).
  - reflexivity.
  - vm_compute. reflexivity.
Defined.

(** ** Degenerate units: learning rate 0, NaN *)

Module ZeroRate.

Lemma error_range {T : Type} {num : Scalar T} (u : Perceptron T) (ex : list T * Z) :
  snd ex = 0%Z \/ snd ex = 1%Z ->
  error_of u ex = (-1)%Z \/ error_of u ex = 0%Z \/ error_of u ex = 1%Z.
Proof.
  unfold error_of, loss_function, output_of, activation_function.
  destruct (sge0 _); intros [-> | ->]; simpl; auto.
Qed.

Lemma float_step_zero_rate (u : Perceptron float) (ex : list float * Z) :
  is_zero (learning_rate u) = true ->
  Forall no_neg_zero (weights u) -> no_neg_zero (bias u) ->
  Forall real (fst ex) -> snd ex = 0%Z \/ snd ex = 1%Z ->
  length (fst ex) = length (weights u) ->
  step u ex = u.
Proof.
  intros Z0 Hw Hb Hx Hy E. unfold step.
  assert (Hz : is_zero (smul (learning_rate u) (sint (error_of u ex))) = true).
  { apply Float64.mul_zero_l; [exact Z0 |].
    destruct (error_range u ex Hy) as [-> | [-> | ->]]; reflexivity. }
  destruct u as [w b lr]. unfold update. simpl in *.
  rewrite FloatUnit.float_iadd_zero by assumption. f_equal.
  now apply Float64.add_zero_r.
Qed.

Lemma exact_step_zero_rate (u : Perceptron Qc) (ex : list Qc * Z) :
  learning_rate u = Q2Qc 0 ->
  length (fst ex) = length (weights u) ->
  step u ex = u.
Proof.
  intros Z0 E. unfold step. destruct u as [w b lr]. unfold update. simpl in *.
  subst lr.
  replace (Qcmult (Q2Qc 0) (Q2Qc (inject_Z (error_of
             {| weights := w; bias := b; learning_rate := Q2Qc 0 |} ex))))
    with (Q2Qc 0) by ring.
  rewrite Exact.exact_iadd_zero by exact E. f_equal. ring.
Qed.

End ZeroRate.

(** X6. A unit with learning rate 0, which [__init__] accepts, never
    learns: whatever [train] is given and whether it returns or raises, it
    leaves the weights and the bias as they were. In binary64 this is for
    finite inputs with labels 0 or 1 and parameters other than the negative
    zero; in exact arithmetic it is unconditional. *)
Theorem zero_rate_never_learns :
  (forall (u : Perceptron float) (xs : list (list float)) (ys : list Z) (n : nat),
     is_zero (learning_rate u) = true ->
     Forall no_neg_zero (weights u) -> no_neg_zero (bias u) ->
     real_data (combine xs ys) ->
     Forall (fun y => y = 0%Z \/ y = 1%Z) ys ->
     snd (train xs ys n u) = u) /\
  (forall (u : Perceptron Qc) (xs : list (list Qc)) (ys : list Z) (n : nat),
     learning_rate u = Q2Qc 0 ->
     snd (train xs ys n u) = u).
Proof.
  split.
  - intros u xs ys n Z0 Hw Hb R L.
    apply (@train_preserves float float64 (fun v => v = u)); [| reflexivity].
    intros v ex Hin -> E.
    unfold real_data in R. rewrite Forall_forall in R, L.
    apply ZeroRate.float_step_zero_rate; try assumption.
    + now apply R.
    + apply L. destruct ex as [x y]. now apply in_combine_r in Hin.
  - intros u xs ys n Z0.
    apply (@train_preserves Qc exact (fun v => v = u)); [| reflexivity].
    intros v ex _ -> E. now apply ZeroRate.exact_step_zero_rate.
Qed.

Lemma zero_rate_never_learns_witness :
  snd (train OR_inputs OR_outputs 10
         {| weights := [0%float; 0%float]; bias := 0%float; learning_rate := 0%float |})
  = {| weights := [0%float; 0%float]; bias := 0%float; learning_rate := 0%float |} /\
  snd (train AND_inputs AND_outputs 10
         {| weights := [Q2Qc 1; Q2Qc 2]; bias := Q2Qc 3; learning_rate := Q2Qc 0 |})
  = {| weights := [Q2Qc 1; Q2Qc 2]; bias := Q2Qc 3; learning_rate := Q2Qc 0 |}.
Proof.
  split.
  - apply (proj1 zero_rate_never_learns).
    + reflexivity.
    + repeat constructor.
    + reflexivity.
    + repeat constructor.
    + repeat (apply Forall_cons; [auto |]). apply Forall_nil.
  - apply (proj2 zero_rate_never_learns). reflexivity.
Defined.

Module Poison.

Lemma mul_nan_r (x : float) : (x * nan)%float = nan.
Proof.
  apply Prim2SF_inj. rewrite mul_spec.
  change (Prim2SF nan) with S754_nan. now destruct (Prim2SF x).
Qed.

Lemma fold_nan (l : list (float * float)) :
  fold_left (fun acc p => sadd acc (smul (fst p) (snd p))) l nan = nan.
Proof.
  induction l as [| p l IH]; [reflexivity |].
  simpl. now rewrite Float64.add_nan_l.
Qed.

Lemma fold_meets_nan (w : list float) : forall x acc,
  In nan w -> length x = length w ->
  fold_left (fun acc p => sadd acc (smul (fst p) (snd p))) (combine x w) acc = nan.
Proof.
  induction w as [| c w IH]; intros [| a x] acc Hin E; try discriminate;
    [contradiction |].
  simpl in E. injection E as E. simpl.
  destruct Hin as [-> | Hin].
  - rewrite mul_nan_r, Float64.add_nan_r. apply fold_nan.
  - now apply IH.
Qed.

Lemma poisoned_output (u : Perceptron float) (x : list float) :
  poisoned u -> length x = length (weights u) -> output_of u x = 0%Z.
Proof.
  intros [B | W] E; unfold output_of, raw_activation.
  - rewrite B. simpl sadd. now rewrite Float64.add_nan_r.
  - change (sdot x (weights u)) with (dot_sum x (weights u)).
    unfold dot_sum. rewrite (@fold_meets_nan (weights u) x _ W E).
    simpl sadd. now rewrite Float64.add_nan_l.
Qed.

Lemma iadd_keeps_nan (w : list float) : forall v,
  In nan w -> length v = length w -> In nan (np_iadd w v).
Proof.
  induction w as [| c w IH]; intros [| b v] Hin E; try discriminate;
    [contradiction |].
  simpl in E. injection E as E.
  change (np_iadd (c :: w) (b :: v)) with (sadd c b :: np_iadd w v).
  destruct Hin as [-> | Hin].
  - left. apply Float64.add_nan_l.
  - right. now apply IH.
Qed.

Lemma poisoned_step (u : Perceptron float) (ex : list float * Z) :
  poisoned u -> length (fst ex) = length (weights u) -> poisoned (step u ex).
Proof.
  intros [B | W] E; unfold step, update, poisoned; simpl.
  - left. rewrite B. apply Float64.add_nan_l.
  - right. apply iadd_keeps_nan; [exact W |].
    unfold np_scale. now rewrite length_map.
Qed.

End Poison.

(** X7. A NaN is never trained away: a unit with a NaN as its bias or
    among its weights still has one after any call of [train], and it
    answers 0 to every input of its size, before and after. *)
Theorem nan_unit_stays_nan_and_predicts_zero
    (u : Perceptron float) (xs : list (list float)) (ys : list Z) (n : nat) :
  poisoned u ->
  poisoned (snd (train xs ys n u)) /\
  (forall x, length x = length (weights u) ->
     predict x u = (Ok 0%Z, u) /\
     predict x (snd (train xs ys n u)) = (Ok 0%Z, snd (train xs ys n u))).
Proof.
  intros P.
  assert (Q : poisoned (snd (train xs ys n u)) /\
              length (weights (snd (train xs ys n u))) = length (weights u)).
  { apply (@train_preserves float float64
             (fun v => poisoned v /\ length (weights v) = length (weights u)));
      [| now split].
    intros v ex _ [Pv L] E. split; [now apply Poison.poisoned_step |].
    unfold step. now rewrite update_length. }
  destruct Q as [P' L]. split; [exact P' |].
  intros x E. split.
  - rewrite (predict_ok _ _ E). now rewrite Poison.poisoned_output.
  - rewrite predict_ok by (now rewrite L). now rewrite Poison.poisoned_output by (assumption || now rewrite L).
Qed.

Lemma nan_unit_stays_nan_and_predicts_zero_witness :
  poisoned (snd (train OR_inputs OR_outputs 10
     {| weights := [0%float; 0%float]; bias := nan; learning_rate := lit_0_1 |})) /\
  (forall x, length x = 2%nat ->
     predict x {| weights := [0%float; 0%float]; bias := nan; learning_rate := lit_0_1 |}
       = (Ok 0%Z, {| weights := [0%float; 0%float]; bias := nan; learning_rate := lit_0_1 |}) /\
     predict x (snd (train OR_inputs OR_outputs 10
       {| weights := [0%float; 0%float]; bias := nan; learning_rate := lit_0_1 |}))
       = (Ok 0%Z, snd (train OR_inputs OR_outputs 10
       {| weights := [0%float; 0%float]; bias := nan; learning_rate := lit_0_1 |}))).
Proof.
  apply (@nan_unit_stays_nan_and_predicts_zero
           {| weights := [0%float; 0%float]; bias := nan; learning_rate := lit_0_1 |}).
  left. reflexivity.
Defined.

(** ** One update, and the scale the learning rate sets *)

Module ExactSteps.

Local Open Scope Qc_scope.

Lemma vdot_axpy (c : Qc) (t : list Qc) : forall x z,
  length x = length t ->
  vdot (np_iadd t (np_scale c x)) z = vdot t z + c * vdot x z.
Proof.
  induction t as [| t0 t IH]; intros [| x0 x] z E; try discriminate.
  - simpl. ring.
  - simpl in E. injection E as E.
    change (np_iadd (t0 :: t) (np_scale c (x0 :: x)))
      with (sadd t0 (smul c x0) :: np_iadd t (np_scale c x)).
    destruct z as [| z0 z]; simpl; [ring |].
    rewrite (IH x z E). unfold_exact. ring.
Qed.

Lemma step_activation (u : Perceptron Qc) (ex : list Qc * Z) :
  length (fst ex) = length (weights u) ->
  raw_activation (step u ex) (fst ex) =
    raw_activation u (fst ex)
    + learning_rate u * sint (error_of u ex) * norm2 (fst ex).
Proof.
  intros E. rewrite !Convergence.raw_activation_vdot.
  unfold step. rewrite Convergence.theta_update.
  rewrite vdot_axpy by (unfold hat, theta; simpl; lia).
  reflexivity.
Qed.

Lemma norm2_pos (x : list Qc) : 0 < norm2 x.
Proof.
  unfold norm2, hat. simpl.
  pose proof (Convergence.vdot_self_nonneg x) as N.
  generalize dependent (vdot x x). intros. to_Q. lra.
Qed.

End ExactSteps.

(** X8. In exact arithmetic the update of an example moves the activation
    of that very example by [learning_rate * error * (1 + Σ_i input[i]^2)]:
    for a positive learning rate a missed 1 raises it, a missed 0 lowers
    it, and an example predicted right leaves it where it was. *)
Theorem update_corrects_towards_label (u : Perceptron Qc) (ex : list Qc * Z) :
  length (fst ex) = length (weights u) ->
  (0 < learning_rate u)%Qc ->
  raw_activation (step u ex) (fst ex) =
    (raw_activation u (fst ex)
     + learning_rate u * sint (error_of u ex) * norm2 (fst ex))%Qc /\
  (error_of u ex = 1%Z ->
     (raw_activation u (fst ex) < raw_activation (step u ex) (fst ex))%Qc) /\
  (error_of u ex = (-1)%Z ->
     (raw_activation (step u ex) (fst ex) < raw_activation u (fst ex))%Qc) /\
  (error_of u ex = 0%Z ->
     raw_activation (step u ex) (fst ex) = raw_activation u (fst ex)).
Proof.
  intros E Hlr.
  pose proof (ExactSteps.step_activation u ex E) as A.
  pose proof (ExactSteps.norm2_pos (fst ex)) as N.
  split; [exact A |].
  rewrite A. clear A.
  generalize dependent (norm2 (fst ex)). intros r N.
  generalize dependent (learning_rate u). intros eta Hlr.
  generalize (raw_activation u (fst ex)). intros a.
  repeat split; intros ->.
  - change (sint 1%Z) with (Q2Qc (inject_Z 1)).
    to_Q. change (inject_Z 1) with (1 # 1)%Q.
    assert (0 < this eta * this r)%Q by nra. lra.
  - change (sint (-1)%Z) with (Q2Qc (inject_Z (-1))).
    to_Q. change (inject_Z (-1)) with (-1 # 1)%Q.
    assert (0 < this eta * this r)%Q by nra. lra.
  - change (sint 0%Z) with (Q2Qc 0). ring.
Qed.

Lemma update_corrects_towards_label_witness :
  raw_activation (step fresh_2_exact ([Q2Qc 1; Q2Qc 1], 0%Z)) [Q2Qc 1; Q2Qc 1] =
    (raw_activation fresh_2_exact [Q2Qc 1; Q2Qc 1]
     + learning_rate fresh_2_exact
       * sint (error_of fresh_2_exact ([Q2Qc 1; Q2Qc 1], 0%Z))
       * norm2 [Q2Qc 1; Q2Qc 1])%Qc /\
  (error_of fresh_2_exact ([Q2Qc 1; Q2Qc 1], 0%Z) = 1%Z ->
     (raw_activation fresh_2_exact [Q2Qc 1; Q2Qc 1]
      < raw_activation (step fresh_2_exact ([Q2Qc 1; Q2Qc 1], 0%Z)) [Q2Qc 1; Q2Qc 1])%Qc) /\
  (error_of fresh_2_exact ([Q2Qc 1; Q2Qc 1], 0%Z) = (-1)%Z ->
     (raw_activation (step fresh_2_exact ([Q2Qc 1; Q2Qc 1], 0%Z)) [Q2Qc 1; Q2Qc 1]
      < raw_activation fresh_2_exact [Q2Qc 1; Q2Qc 1])%Qc) /\
  (error_of fresh_2_exact ([Q2Qc 1; Q2Qc 1], 0%Z) = 0%Z ->
     raw_activation (step fresh_2_exact ([Q2Qc 1; Q2Qc 1], 0%Z)) [Q2Qc 1; Q2Qc 1]
     = raw_activation fresh_2_exact [Q2Qc 1; Q2Qc 1]).
Proof.
  apply (@update_corrects_towards_label fresh_2_exact ([Q2Qc 1; Q2Qc 1], 0%Z)).
  - reflexivity.
  - reflexivity.
Defined.

Section RelatedLoops.

Context {S : Type}.

Variable R : S -> S -> Prop.

Lemma for_each_related {A : Type} (body : A -> M S unit) :
  (forall a s s', R s s' ->
     fst (body a s) = fst (body a s') /\ R (snd (body a s)) (snd (body a s'))) ->
  forall l s s', R s s' ->
    fst (for_each l body s) = fst (for_each l body s') /\
    R (snd (for_each l body s)) (snd (for_each l body s')).
Proof.
  intros B l. induction l as [| a l IH]; intros s s' Rs; [now split |].
  simpl. unfold bind. destruct (B a s s' Rs) as [E1 E2].
  destruct (body a s) as [[[] | e] t], (body a s') as [[[] | e'] t'];
    simpl in *; try discriminate.
  - now apply IH.
  - now split.
Qed.

Lemma for_range_related (body : M S unit) :
  (forall s s', R s s' ->
     fst (body s) = fst (body s') /\ R (snd (body s)) (snd (body s'))) ->
  forall n s s', R s s' ->
    fst (for_range n body s) = fst (for_range n body s') /\
    R (snd (for_range n body s)) (snd (for_range n body s')).
Proof.
  intros B n. induction n as [| n IH]; intros s s' Rs; [now split |].
  simpl. unfold bind. destruct (B s s' Rs) as [E1 E2].
  destruct (body s) as [[[] | e] t], (body s') as [[[] | e'] t'];
    simpl in *; try discriminate.
  - now apply IH.
  - now split.
Qed.

End RelatedLoops.

Module Scaling.

Local Open Scope Qc_scope.

Lemma scaled_length (k : Qc) (u u1 : Perceptron Qc) :
  scaled k u u1 -> length (weights u) = length (weights u1).
Proof.
  intros (W & _ & _). rewrite W. apply length_map.
Qed.

Lemma scaled_activation (k : Qc) (u u1 : Perceptron Qc) (x : list Qc) :
  scaled k u u1 -> raw_activation u x = k * raw_activation u1 x.
Proof.
  intros (W & B & _). rewrite !Convergence.raw_activation_vdot.
  unfold theta. rewrite W, B.
  change (k * bias u1 :: map (Qcmult k) (weights u1))
    with (map (Qcmult k) (bias u1 :: weights u1)).
  apply Convergence.vdot_scale.
Qed.

Lemma sge0_scale (k a : Qc) : 0 < k -> sge0 (k * a) = sge0 a.
Proof.
  intros K. destruct (sge0 a) eqn:E.
  - apply Convergence.sge0_true in E. apply Convergence.sge0_true.
    to_Q. nra.
  - apply Convergence.sge0_false in E. apply Convergence.sge0_false.
    to_Q. nra.
Qed.

Lemma scaled_output (k : Qc) (u u1 : Perceptron Qc) (x : list Qc) :
  0 < k -> scaled k u u1 -> output_of u x = output_of u1 x.
Proof.
  intros K Sc. unfold output_of, activation_function.
  now rewrite (scaled_activation x Sc), sge0_scale.
Qed.

Lemma scaled_iadd (k c : Qc) (w : list Qc) : forall x,
  np_iadd (map (Qcmult k) w) (np_scale (k * c) x)
  = map (Qcmult k) (np_iadd w (np_scale c x)).
Proof.
  induction w as [| a w IH]; intros [| b x]; try reflexivity.
  change (np_iadd (map (Qcmult k) (a :: w)) (np_scale (k * c) (b :: x)))
    with (sadd (k * a) (smul (k * c) b)
          :: np_iadd (map (Qcmult k) w) (np_scale (k * c) x)).
  change (np_iadd (a :: w) (np_scale c (b :: x)))
    with (sadd a (smul c b) :: np_iadd w (np_scale c x)).
  rewrite IH. simpl map. f_equal. unfold_exact. ring.
Qed.

Lemma scaled_step (k : Qc) (u u1 : Perceptron Qc) (ex : list Qc * Z) :
  0 < k -> scaled k u u1 -> scaled k (step u ex) (step u1 ex).
Proof.
  intros K Sc. unfold step, error_of.
  rewrite (scaled_output (fst ex) K Sc).
  destruct Sc as (W & B & L).
  set (e := loss_function (snd ex) (output_of u1 (fst ex))).
  unfold scaled, update. simpl. rewrite W, B, L.
  split; [| split].
  - rewrite <- scaled_iadd. f_equal. f_equal. unfold_exact. ring.
  - unfold_exact. ring.
  - reflexivity.
Qed.

Lemma scaled_train_body (k : Qc) (u u1 : Perceptron Qc) (ex : list Qc * Z) :
  0 < k -> scaled k u u1 ->
  fst (train_body ex u) = fst (train_body ex u1) /\
  scaled k (snd (train_body ex u)) (snd (train_body ex u1)).
Proof.
  intros K Sc. pose proof (scaled_length Sc) as L.
  destruct (Nat.eq_dec (length (fst ex)) (length (weights u))) as [E | E].
  - rewrite (train_body_ok _ _ E), train_body_ok by (now rewrite <- L).
    split; [reflexivity | now apply scaled_step].
  - rewrite (train_body_raise _ _ E), train_body_raise by (now rewrite <- L).
    simpl. rewrite L. now split.
Qed.

Lemma scaled_train (k : Qc) (u u1 : Perceptron Qc)
    (xs : list (list Qc)) (ys : list Z) (n : nat) :
  0 < k -> scaled k u u1 ->
  fst (train xs ys n u) = fst (train xs ys n u1) /\
  scaled k (snd (train xs ys n u)) (snd (train xs ys n u1)).
Proof.
  intros K Sc. unfold train.
  apply (for_range_related (scaled k)); [| exact Sc].
  intros s s' Rs. apply (for_each_related (scaled k)); [| exact Rs].
  intros ex t t' Rt. now apply scaled_train_body.
Qed.

Lemma scaled_predict (k : Qc) (u u1 : Perceptron Qc) (x : list Qc) :
  0 < k -> scaled k u u1 -> fst (predict x u) = fst (predict x u1).
Proof.
  intros K Sc. pose proof (scaled_length Sc) as L.
  destruct (Nat.eq_dec (length x) (length (weights u))) as [E | E].
  - rewrite (predict_ok _ _ E), predict_ok by (now rewrite <- L).
    simpl. f_equal. now apply (scaled_output x K).
  - rewrite (predict_raise _ _ E), predict_raise by (now rewrite <- L).
    simpl. now rewrite L.
Qed.

End Scaling.

(** X9. In exact arithmetic the learning rate of a fresh unit only sets the
    scale: trained on the same data for the same number of epochs,
    [Perceptron(n, lr)] with [lr > 0] returns or raises as [Perceptron(n, 1)]
    does, ends with [lr] times its weights and bias, and answers every
    input as it does. *)
Theorem learning_rate_only_scales
    (size : Z) (lr : Qc) (u u1 : Perceptron Qc)
    (xs : list (list Qc)) (ys : list Z) (n : nat) :
  (0 < lr)%Qc ->
  init size lr = Ok u ->
  init size (Q2Qc 1) = Ok u1 ->
  fst (train xs ys n u) = fst (train xs ys n u1) /\
  weights (snd (train xs ys n u))
    = map (Qcmult lr) (weights (snd (train xs ys n u1))) /\
  bias (snd (train xs ys n u)) = (lr * bias (snd (train xs ys n u1)))%Qc /\
  (forall x,
     fst (predict x (snd (train xs ys n u)))
     = fst (predict x (snd (train xs ys n u1)))).
Proof.
  intros K I I1.
  assert (Sc : scaled lr u u1).
  { apply init_inv in I as [_ ->]. apply init_inv in I1 as [_ ->].
    unfold scaled. simpl.
    split; [| split].
    - induction (Z.to_nat size) as [| m IH]; simpl; [reflexivity |].
      rewrite <- IH. f_equal. unfold_exact. ring.
    - unfold_exact. ring.
    - ring. }
  destruct (Scaling.scaled_train xs ys n K Sc) as [E Sc'].
  split; [exact E |].
  split; [apply Sc' |]. split; [apply Sc' |].
  intros x. now apply (Scaling.scaled_predict x K).
Qed.

Lemma learning_rate_only_scales_witness :
  fst (train AND_inputs AND_outputs 10 fresh_2_exact)
    = fst (train AND_inputs AND_outputs 10
             {| weights := [Q2Qc 0; Q2Qc 0]; bias := Q2Qc 0; learning_rate := Q2Qc 1 |}) /\
  weights (snd (train AND_inputs AND_outputs 10 fresh_2_exact))
    = map (Qcmult lit_0_1)
        (weights (snd (train AND_inputs AND_outputs 10
           {| weights := [Q2Qc 0; Q2Qc 0]; bias := Q2Qc 0; learning_rate := Q2Qc 1 |}))) /\
  bias (snd (train AND_inputs AND_outputs 10 fresh_2_exact))
    = (lit_0_1 * bias (snd (train AND_inputs AND_outputs 10
         {| weights := [Q2Qc 0; Q2Qc 0]; bias := Q2Qc 0; learning_rate := Q2Qc 1 |})))%Qc /\
  (forall x,
     fst (predict x (snd (train AND_inputs AND_outputs 10 fresh_2_exact)))
     = fst (predict x (snd (train AND_inputs AND_outputs 10
         {| weights := [Q2Qc 0; Q2Qc 0]; bias := Q2Qc 0; learning_rate := Q2Qc 1 |})))).
Proof.
  apply (@learning_rate_only_scales 2 lit_0_1); reflexivity.
Defined.

(** ** The number of mistakes *)

Module MistakeBound.

Local Open Scope Qc_scope.

Lemma qnat_add (a b : nat) : qnat (a + b) = qnat a + qnat b.
Proof.
  induction a as [| a IH]; simpl; [ring | rewrite IH; ring].
Qed.

Lemma qnat_lt (a b : nat) : qnat a < qnat b -> (a < b)%nat.
Proof.
  unfold Qclt. rewrite !Convergence.qnat_this, <- Zlt_Qlt. lia.
Qed.

Section Count.

Variables (v : list Qc) (mu eta : Qc) (n : nat) (d : list (list Qc * Z)).

Hypothesis eta_pos : 0 < eta.
Hypothesis v_length : length v = S n.
Hypothesis d_length : forall ex, In ex d -> length (fst ex) = n.
Hypothesis d_margin : forall ex, In ex d -> margin mu v ex.
Hypothesis mu_large : forall ex, In ex d -> eta * norm2 (fst ex) + 1 <= mu.

Lemma sweep_potential_count (d' : list (list Qc * Z)) : forall u,
  incl d' d -> good eta n u ->
  potential v (sweep u d') + qnat (misclassified u d') * eta <= potential v u.
Proof.
  induction d' as [| ex d' IH]; intros u I G.
  - simpl. generalize (potential v u). intros. to_Q. lra.
  - change (sweep u (ex :: d')) with (sweep (step u ex) d').
    assert (Hin : In ex d) by (apply I; now left).
    assert (I' : incl d' d) by (intros e He; apply I; now right).
    destruct (@Convergence.step_potential v mu eta n d eta_pos v_length d_length
                d_margin mu_large u ex G Hin) as [S1 S2].
    pose proof (IH (step u ex) I'
                  (@Convergence.good_step eta n d d_length u ex G Hin)) as T.
    rewrite misclassified_cons, qnat_add.
    destruct (Z.eqb_spec (error_of u ex) 0) as [E | E].
    + simpl qnat.
      generalize dependent (potential v (sweep (step u ex) d')).
      generalize dependent (potential v (step u ex)).
      generalize (potential v u). generalize (qnat (misclassified (step u ex) d')).
      intros. to_Q. lra.
    + specialize (S2 E). simpl qnat.
      generalize dependent (potential v (sweep (step u ex) d')).
      generalize dependent (potential v (step u ex)).
      generalize (potential v u). generalize (qnat (misclassified (step u ex) d')).
      intros. to_Q. lra.
Qed.

Lemma sweeps_potential_count (k : nat) : forall u,
  good eta n u ->
  potential v (sweeps k u d) + qnat (total_mistakes k u d) * eta <= potential v u.
Proof.
  induction k as [| k IH]; intros u G.
  - simpl. generalize (potential v u). intros. to_Q. lra.
  - simpl sweeps. simpl total_mistakes. rewrite qnat_add.
    pose proof (@sweep_potential_count d u (@incl_refl _ d) G) as S1.
    pose proof (IH (sweep u d)
                  (@Convergence.good_sweep eta n d d_length d u (@incl_refl _ d) G)) as S2.
    generalize dependent (potential v (sweeps k (sweep u d) d)).
    generalize dependent (potential v (sweep u d)).
    generalize (potential v u).
    generalize (qnat (total_mistakes k (sweep u d) d)).
    generalize (qnat (misclassified u d)).
    intros. to_Q. lra.
Qed.

End Count.

Lemma mistakes_bounded (u : Perceptron Qc) (d : list (list Qc * Z)) :
  0 < learning_rate u -> fits u d -> separable d ->
  exists B, forall k, (total_mistakes k u d < B)%nat.
Proof.
  intros Hlr F [s [Fs C]].
  destruct d as [| ex0 d0] eqn:Ed.
  { exists 1%nat. intros k. clear. revert u.
    induction k as [| k IH]; intros u; simpl; [lia | apply IH]. }
  rewrite <- Ed in *.
  assert (Hex0 : In ex0 d) by (rewrite Ed; now left).
  assert (Ls : length (weights s) = length (weights u)).
  { unfold fits in *. rewrite Forall_forall in F, Fs.
    rewrite <- (F ex0 Hex0). symmetry. now apply Fs. }
  set (eta := learning_rate u) in *.
  set (M := eta * radius2 d + 1).
  assert (Mpos : 0 < M).
  { unfold M. pose proof (Convergence.radius2_nonneg d) as R.
    generalize dependent (radius2 d). clearbody eta. intros. to_Q. nra. }
  destruct (@Convergence.margin_exists s d M Mpos C) as [v [Lv Mv]].
  destruct (Convergence.qnat_unbounded (potential v u * / eta)) as [B HB].
  assert (Enz : eta <> 0) by (apply not_eq_sym, Qclt_not_eq; exact Hlr).
  apply (@Qcmult_lt_compat_r _ _ eta Hlr) in HB.
  replace (potential v u * / eta * eta) with (potential v u) in HB
    by (field; exact Enz).
  exists B. intros k. apply qnat_lt.
  pose proof (@sweeps_potential_count v M eta (length (weights u)) d) as Cnt.
  specialize (Cnt Hlr).
  rewrite Lv, Ls in Cnt. specialize (Cnt eq_refl).
  assert (Dl : forall ex, In ex d -> length (fst ex) = length (weights u)).
  { intros ex Hin. unfold fits in F. rewrite Forall_forall in F. now apply F. }
  specialize (Cnt Dl Mv).
  assert (Ml : forall ex, In ex d -> eta * norm2 (fst ex) + 1 <= M).
  { intros ex Hin. unfold M.
    pose proof (@Convergence.radius2_bound d ex Hin) as R.
    generalize dependent (radius2 d). generalize (norm2 (fst ex)).
    clearbody eta. clear - Hlr. intros. to_Q. nra. }
  specialize (Cnt Ml k u (conj eq_refl eq_refl)).
  pose proof (Convergence.dist2_nonneg (theta (sweeps k u d)) v) as P.
  fold (potential v (sweeps k u d)) in P.
  generalize dependent (potential v (sweeps k u d)).
  generalize dependent (potential v u).
  generalize (qnat (total_mistakes k u d)). generalize (qnat B).
  clearbody eta. clear - Hlr. intros. to_Q. nra.
Qed.

End MistakeBound.

(** X10. In exact arithmetic, on a linearly separable data set and with a
    positive learning rate, training makes finitely many mistakes: from
    any unit there is a bound that the number of updates with an error
    other than 0 stays below, however many epochs are run. *)
Theorem separable_data_bound_the_mistakes
    (u : Perceptron Qc) (d : list (list Qc * Z)) :
  (0 < learning_rate u)%Qc -> fits u d -> separable d ->
  exists B, forall n,
    train (inputs_of d) (outputs_of d) n u = (Ok tt, sweeps n u d) /\
    (total_mistakes n u d < B)%nat.
Proof.
  intros Hlr F S.
  destruct (MistakeBound.mistakes_bounded Hlr F S) as [B HB].
  exists B. intros n. split; [now apply train_ok | apply HB].
Qed.

Lemma separable_data_bound_the_mistakes_witness :
  exists B, forall n,
    train (inputs_of big_data_exact) (outputs_of big_data_exact) n fresh_2_exact
      = (Ok tt, sweeps n fresh_2_exact big_data_exact) /\
    (total_mistakes n fresh_2_exact big_data_exact < B)%nat.
Proof.
  apply (@separable_data_bound_the_mistakes fresh_2_exact big_data_exact).
  - reflexivity.
  - repeat constructor.
  - exists {| weights := [Q2Qc (-1); Q2Qc (3 # 2)]; bias := Q2Qc 0;
              learning_rate := Q2Qc 1 |}.
    split; [repeat constructor |].
    intros ex [<- | [<- | [<- | []]]]; vm_compute; reflexivity.
Defined.

(** ** Data that no unit separates *)

Section CleanEpoch.

Context {T : Type} {num : Scalar T}.

Variable d : list (list T * Z).
Variable P : Perceptron T -> Prop.

Hypothesis P_fits : forall u, P u -> fits u d.
Hypothesis P_neutral : forall u, P u -> zero_update_neutral u d.
Hypothesis P_sweep : forall u, P u -> P (sweep u d).

Lemma clean_epoch_classifies (u : Perceptron T) :
  P u -> misclassified u d = 0%nat -> classifies u d.
Proof.
  intros Pu Z0. split; [now apply P_fits |].
  intros ex Hin.
  pose proof (zero_errors_everywhere (P_neutral Pu) Z0 ex Hin) as E.
  unfold error_of, loss_function in E. lia.
Qed.

Lemma inseparable_miss (u : Perceptron T) :
  ~ separable d -> P u -> (0 < misclassified u d)%nat.
Proof.
  intros NS Pu.
  destruct (misclassified u d) eqn:Z0; [| lia].
  exfalso. apply NS. exists u. now apply clean_epoch_classifies.
Qed.

Lemma P_sweeps (n : nat) : forall u, P u -> P (sweeps n u d).
Proof.
  induction n as [| n IH]; intros u Pu; [exact Pu |].
  simpl. apply IH. now apply P_sweep.
Qed.

Lemma inseparable_total (n : nat) : forall u,
  ~ separable d -> P u -> (n <= total_mistakes n u d)%nat.
Proof.
  induction n as [| n IH]; intros u NS Pu; [apply Nat.le_refl |].
  simpl. pose proof (inseparable_miss NS Pu).
  pose proof (IH (sweep u d) NS (P_sweep Pu)). lia.
Qed.

End CleanEpoch.


Module Xor.

Local Open Scope Qc_scope.

Lemma xor_not_separable :
  ~ separable XOR_data.
Proof.
  intros [[w b lr] [F C]].
  assert (L : length w = 2%nat).
  { unfold fits in F. apply Forall_inv in F. simpl in F. now symmetry. }
  destruct w as [| w1 [| w2 [| ? ?]]]; try discriminate. clear F L.
  pose proof (C _ (or_introl eq_refl)) as C00.
  pose proof (C _ (or_intror (or_introl eq_refl))) as C01.
  pose proof (C _ (or_intror (or_intror (or_introl eq_refl)))) as C10.
  pose proof (C _ (or_intror (or_intror (or_intror (or_introl eq_refl))))) as C11.
  clear C. simpl fst in *. simpl snd in *.
  unfold output_of, activation_function in *.
  rewrite Convergence.raw_activation_vdot in C00, C01, C10, C11.
  destruct (sge0 _) eqn:E00 in C00; [discriminate |].
  destruct (sge0 _) eqn:E01 in C01; [| discriminate].
  destruct (sge0 _) eqn:E10 in C10; [| discriminate].
  destruct (sge0 _) eqn:E11 in C11; [discriminate |].
  apply Convergence.sge0_false in E00, E11.
  apply Convergence.sge0_true in E01, E10.
  unfold theta, hat, vdot in *. simpl in *.
  change (sint 0%Z) with (Q2Qc 0) in *. change (sint 1%Z) with (Q2Qc 1) in *.
  clear C00 C01 C10 C11.
  to_Q. lra.
Qed.

Lemma torn_not_separable : ~ separable torn_data.
Proof.
  intros [v [_ C]].
  pose proof (C _ (or_introl eq_refl)) as C0.
  pose proof (C _ (or_intror (or_introl eq_refl))) as C1.
  simpl in C0, C1. rewrite C0 in C1. discriminate.
Qed.

End Xor.

